(** * Content libraries and course goals: models, their write paths and the
      0007 course-goals migration

    Shallow embedding of
    - [openedx/core/djangoapps/content_libraries/models.py]
    - [lms/djangoapps/course_goals/migrations/0007_set_unsubscribe_token_default.py]

    The models are declarations on top of Django's ORM.  What the source
    itself writes (the guard in [ContentLibraryPermission.save], the body of
    [ContentLibraryBlockImportTask.execute] and [save_progress], the field and
    [Meta] options, the migration's operations) is transcribed below.  What
    the source delegates to ([models.Model.save], [Manager.get], the storage
    engine's unique indexes) is written once, in [Module Orm], as the contract
    those calls have in Django with a relational backend. *)

From Stdlib Require Import ZArith NArith Bool List String Floats.
From stdpp Require Import base option strings list gmap fin_maps.

Open Scope Z_scope.

(** ** The ORM contract the models rely on *)

Module Orm.

(** Exceptions that can cross the functions of this file.  [Raised] stands
    for any exception coming from code outside this file (the body of a
    [with] block), told apart by its code only. *)
Inductive exn : Type :=
| ValidationError (msg : string)
| IntegrityError
| DoesNotExist
| DatabaseError (msg : string)
| ValueError (msg : string)
| Raised (code : Z).

Inductive result (A : Type) : Type :=
| Ok (a : A)
| Raise (e : exn).
Arguments Ok {A} a.
Arguments Raise {A} e.

(** A model instance in memory: its primary key ([None] until the first
    insert) and the values of its columns. *)
Record obj (F : Type) : Type := Obj { pk : option Z; attrs : F }.
Arguments Obj {F} pk attrs.
Arguments pk {F} o.
Arguments attrs {F} o.

(** A table: its rows by primary key and the [AutoField] sequence. *)
Record table (F : Type) : Type := Table { rows : gmap Z F; next_pk : Z }.
Arguments Table {F} rows next_pk.
Arguments rows {F} t.
Arguments next_pk {F} t.

Definition empty_table {F : Type} : table F := Table ∅ 1.

(** What the ORM needs to know of a model: its columns, what [pre_save]
    does to a column ([auto_now], [auto_now_add]), how one column is copied
    from an instance into a stored row, and when two rows may not coexist
    ([unique], [unique_together]). *)
Class Model (F : Type) : Type := {
  field_names : list string;
  pre_save : string → bool → Z → F → F;
  assign : string → F → F → F;
  conflict : F → F → bool
}.

Section Save.
Context {F : Type} `{Model F}.

(** [pre_save] of the listed columns, in order. *)
Definition run_pre_save (names : list string) (add : bool) (now : Z) (r : F) : F :=
  fold_left (λ acc f, pre_save f add now acc) names r.

(** [UPDATE ... SET f = src.f] for the listed columns. *)
Definition write_columns (names : list string) (src dst : F) : F :=
  fold_left (λ acc f, assign f src acc) names dst.

(** A unique index refuses [r] at key [k] when another row conflicts. *)
Definition violates (k : Z) (r : F) (m : gmap Z F) : bool :=
  bool_decide (map_Exists (λ k' r', k' ≠ k ∧ conflict r r' = true) m).

(** [Manager.get(pk=k)]. *)
Definition objects_get (k : Z) (t : table F) : result (obj F) :=
  match rows t !! k with
  | Some r => Ok (Obj (Some k) r)
  | None => Raise DoesNotExist
  end.

(** [Model.save(update_fields=...)].  With a primary key the row is
    updated, and inserted when no row has that key; without one it is
    inserted under the next key of the sequence.  [update_fields] limits
    both [pre_save] and the written columns, and then a missing row or a
    missing key is an error; an empty [update_fields] saves nothing and a
    name that is no column is refused.  The instance is returned as
    [pre_save] and the insert leave it. *)
Definition known_fields (names : list string) : bool :=
  forallb (λ f, bool_decide (f ∈ field_names)) names.

Definition Model_save_table (update_fields : option (list string)) (now : Z)
    (o : obj F) (t : table F) : result unit * obj F * table F :=
  match pk o with
  | None =>
      match update_fields with
      | Some _ =>
          (Raise (ValueError "Cannot force an update in save() with no primary key."), o, t)
      | None =>
          let r := run_pre_save field_names true now (attrs o) in
          let k := next_pk t in
          if violates k r (rows t) then (Raise IntegrityError, Obj None r, t)
          else (Ok tt, Obj (Some k) r, Table (<[k := r]> (rows t)) (k + 1))
      end
  | Some k =>
      let names := default field_names update_fields in
      let r := run_pre_save names false now (attrs o) in
      match rows t !! k with
      | Some old =>
          let new := write_columns names r old in
          if violates k new (rows t) then (Raise IntegrityError, Obj (Some k) r, t)
          else (Ok tt, Obj (Some k) r, Table (<[k := new]> (rows t)) (next_pk t))
      | None =>
          match update_fields with
          | Some _ =>
              (Raise (DatabaseError "Save with update_fields did not affect any rows."),
               Obj (Some k) r, t)
          | None =>
              let r' := run_pre_save field_names true now r in
              if violates k r' (rows t) then (Raise IntegrityError, Obj (Some k) r', t)
              else (Ok tt, Obj (Some k) r',
                    Table (<[k := r']> (rows t)) (Z.max (next_pk t) (k + 1)))
          end
      end
  end.

Definition Model_save (update_fields : option (list string)) (now : Z)
    (o : obj F) (t : table F) : result unit * obj F * table F :=
  match update_fields with
  | Some [] => (Ok tt, o, t)
  | Some names =>
      if known_fields names then Model_save_table update_fields now o t
      else (Raise (ValueError "The following fields do not exist in this model or are m2m fields"),
            o, t)
  | None => Model_save_table None now o t
  end.

(** [Model.delete()] of the row with key [k]. *)
Definition Model_delete (k : Z) (t : table F) : table F :=
  Table (delete k (rows t)) (next_pk t).

(** [Manager.create(...)]: a new object, saved. *)
Definition objects_create (now : Z) (r : F) (t : table F)
    : result unit * obj F * table F :=
  Model_save None now (Obj None r) t.

(** The rows of a table respect the model's unique indexes. *)
Definition consistent (t : table F) : Prop :=
  ∀ k1 k2 r1 r2,
    rows t !! k1 = Some r1 → rows t !! k2 = Some r2 → k1 ≠ k2 →
    conflict r1 r2 = false.
End Save.

(** The writes a table receives over time: saves of objects, through the
    model's own [save], and deletions. *)
Inductive write (F : Type) : Type :=
| Save (update_fields : option (list string)) (now : Z) (o : obj F)
| Delete (k : Z).
Arguments Save {F} update_fields now o.
Arguments Delete {F} k.

Definition save_method (F : Type) : Type :=
  option (list string) → Z → obj F → table F → result unit * obj F * table F.

Definition apply_write {F : Type} (save : save_method F)
    (w : write F) (t : table F) : table F :=
  match w with
  | Save uf now o => (save uf now o t).2
  | Delete k => Model_delete k t
  end.

Definition apply_writes {F : Type} (save : save_method F)
    (ws : list (write F)) (t : table F) : table F :=
  fold_left (λ acc w, apply_write save w acc) ws t.

(** Python truthiness of a nullable related object: [None] is falsy, a
    model instance is truthy. *)
Definition truthy {A : Type} (o : option A) : bool :=
  match o with Some _ => true | None => false end.

End Orm.
Import Orm.

(** ** [class ContentLibrary(models.Model)] *)

Module ContentLibrary.

(** [org] is the key of the organization row, [bundle_uuid] a 128-bit
    number; [type] and [license] are character columns. *)
Record row : Type := Row {
  org : Z;
  slug : string;
  bundle_uuid : N;
  type : string;
  license : string;
  allow_public_learning : bool;
  allow_public_read : bool
}.

(** [Meta.unique_together = ("org", "slug")] and
    [bundle_uuid = UUIDField(unique=True, null=False)]. *)
Definition same_org_slug (a b : row) : bool :=
  (org a =? org b) && bool_decide (slug a = slug b).

Definition same_bundle_uuid (a b : row) : bool :=
  (bundle_uuid a =? bundle_uuid b)%N.

Definition assign_field (f : string) (src dst : row) : row :=
  if String.eqb f "org" then
    Row (org src) (slug dst) (bundle_uuid dst) (type dst) (license dst)
        (allow_public_learning dst) (allow_public_read dst)
  else if String.eqb f "slug" then
    Row (org dst) (slug src) (bundle_uuid dst) (type dst) (license dst)
        (allow_public_learning dst) (allow_public_read dst)
  else if String.eqb f "bundle_uuid" then
    Row (org dst) (slug dst) (bundle_uuid src) (type dst) (license dst)
        (allow_public_learning dst) (allow_public_read dst)
  else if String.eqb f "type" then
    Row (org dst) (slug dst) (bundle_uuid dst) (type src) (license dst)
        (allow_public_learning dst) (allow_public_read dst)
  else if String.eqb f "license" then
    Row (org dst) (slug dst) (bundle_uuid dst) (type dst) (license src)
        (allow_public_learning dst) (allow_public_read dst)
  else if String.eqb f "allow_public_learning" then
    Row (org dst) (slug dst) (bundle_uuid dst) (type dst) (license dst)
        (allow_public_learning src) (allow_public_read dst)
  else if String.eqb f "allow_public_read" then
    Row (org dst) (slug dst) (bundle_uuid dst) (type dst) (license dst)
        (allow_public_learning dst) (allow_public_read src)
  else dst.

#[global] Instance model : Model row := {|
  field_names := ["org"; "slug"; "bundle_uuid"; "type"; "license";
                  "allow_public_learning"; "allow_public_read"]%string;
  pre_save := λ _ _ _ r, r;
  assign := assign_field;
  conflict := λ a b, same_org_slug a b || same_bundle_uuid a b
|}.

(** The model does not override [save]. *)
Definition save : save_method row := Model_save.

End ContentLibrary.

(** ** [class ContentLibraryPermission(models.Model)] *)

Module ContentLibraryPermission.

(** [library], [user] and [group] hold the keys of the related rows;
    [user] and [group] are [null=True]. *)
Record row : Type := Row {
  library : Z;
  user : option Z;
  group : option Z;
  access_level : string
}.

Definition ADMIN_LEVEL : string := "admin".
Definition AUTHOR_LEVEL : string := "author".
Definition READ_LEVEL : string := "read".

(** A unique index never matches on NULL. *)
Definition same_key (a b : option Z) : bool :=
  match a, b with
  | Some x, Some y => x =? y
  | _, _ => false
  end.

(** [Meta.unique_together = [('library', 'user'), ('library', 'group')]]. *)
Definition same_library_user (a b : row) : bool :=
  (library a =? library b) && same_key (user a) (user b).

Definition same_library_group (a b : row) : bool :=
  (library a =? library b) && same_key (group a) (group b).

Definition assign_field (f : string) (src dst : row) : row :=
  if String.eqb f "library" then
    Row (library src) (user dst) (group dst) (access_level dst)
  else if String.eqb f "user" then
    Row (library dst) (user src) (group dst) (access_level dst)
  else if String.eqb f "group" then
    Row (library dst) (user dst) (group src) (access_level dst)
  else if String.eqb f "access_level" then
    Row (library dst) (user dst) (group dst) (access_level src)
  else dst.

#[global] Instance model : Model row := {|
  field_names := ["library"; "user"; "group"; "access_level"]%string;
  pre_save := λ _ _ _ r, r;
  assign := assign_field;
  conflict := λ a b, same_library_user a b || same_library_group a b
|}.

(** [def save(self, ...)]:
    [if (not self.user) == (not self.group): raise ValidationError(...)]
    and otherwise [return super().save(...)] with the arguments it was
    given, of which [update_fields] is the one modelled.  [super_save] is
    the [save] the class inherits. *)
Definition save_over (super_save : save_method row) : save_method row :=
  λ update_fields now self t,
    if Bool.eqb (negb (truthy (user (attrs self)))) (negb (truthy (group (attrs self)))) then
      (Raise (ValidationError "One and only one of 'user' and 'group' must be set."), self, t)
    else super_save update_fields now self t.

(** The class derives from [models.Model] alone. *)
Definition save : save_method row := save_over Model_save.

(** How many of [user] and [group] are set. *)
Definition grantees (r : row) : nat :=
  ((if truthy (user r) then 1 else 0) + (if truthy (group r) then 1 else 0))%nat.

End ContentLibraryPermission.

(** ** [class ContentLibraryBlockImportTask(models.Model)] *)

Module ContentLibraryBlockImportTask.

(** [TASK_STATE_CHOICES]. *)
Inductive task_state : Type :=
| TASK_CREATED
| TASK_PENDING
| TASK_RUNNING
| TASK_FAILED
| TASK_SUCCESSFUL.

#[global] Instance task_state_eq_dec : EqDecision task_state.
Proof. solve_decision. Defined.

(** The value each choice is stored as. *)
Definition state_value (s : task_state) : string :=
  match s with
  | TASK_CREATED => "created"
  | TASK_PENDING => "pending"
  | TASK_RUNNING => "running"
  | TASK_FAILED => "failed"
  | TASK_SUCCESSFUL => "successful"
  end.

(** [progress] is a [FloatField]: an IEEE double, stored as given.
    [created_at] and [updated_at] are instants, unset on an object that
    was never saved; [library] is the key of the library row. *)
Record row : Type := Row {
  library : Z;
  state : task_state;
  progress : float;
  course_id : string;
  created_at : option Z;
  updated_at : option Z
}.

(** [state = CharField(default=TASK_CREATED)], [progress = FloatField(default=0.0)]. *)
Definition new_row (library : Z) (course_id : string) : row :=
  Row library TASK_CREATED 0%float course_id None None.

Definition set_state (s : task_state) (r : row) : row :=
  Row (library r) s (progress r) (course_id r) (created_at r) (updated_at r).

Definition set_progress (p : float) (r : row) : row :=
  Row (library r) (state r) p (course_id r) (created_at r) (updated_at r).

Definition assign_field (f : string) (src dst : row) : row :=
  if String.eqb f "library" then
    Row (library src) (state dst) (progress dst) (course_id dst) (created_at dst) (updated_at dst)
  else if String.eqb f "state" then
    Row (library dst) (state src) (progress dst) (course_id dst) (created_at dst) (updated_at dst)
  else if String.eqb f "progress" then
    Row (library dst) (state dst) (progress src) (course_id dst) (created_at dst) (updated_at dst)
  else if String.eqb f "course_id" then
    Row (library dst) (state dst) (progress dst) (course_id src) (created_at dst) (updated_at dst)
  else if String.eqb f "created_at" then
    Row (library dst) (state dst) (progress dst) (course_id dst) (created_at src) (updated_at dst)
  else if String.eqb f "updated_at" then
    Row (library dst) (state dst) (progress dst) (course_id dst) (created_at dst) (updated_at src)
  else dst.

(** [created_at = DateTimeField(auto_now_add=True)] and
    [updated_at = DateTimeField(auto_now=True)]. *)
Definition pre_save_field (f : string) (add : bool) (now : Z) (r : row) : row :=
  if String.eqb f "created_at" then
    if add then
      Row (library r) (state r) (progress r) (course_id r) (Some now) (updated_at r)
    else r
  else if String.eqb f "updated_at" then
    Row (library r) (state r) (progress r) (course_id r) (created_at r) (Some now)
  else r.

(** The model declares no unique column beside its key. *)
#[global] Instance model : Model row := {|
  field_names := ["library"; "state"; "progress"; "course_id";
                  "created_at"; "updated_at"]%string;
  pre_save := pre_save_field;
  assign := assign_field;
  conflict := λ _ _, false
|}.

Definition with_attrs (f : row → row) (self : obj row) : obj row :=
  Obj (pk self) (f (attrs self)).

(** [execute] is a generator under [contextlib.contextmanager].  Entering
    the [with] block runs it up to its [yield]:
    [self = cls.objects.get(pk=import_task_id)],
    [self.state = self.TASK_RUNNING], [self.save()], [yield self]. *)
Definition execute_enter (import_task_id now : Z) (t : table row)
    : result (obj row) * table row :=
  match objects_get import_task_id t with
  | Raise e => (Raise e, t)
  | Ok self =>
      let self := with_attrs (set_state TASK_RUNNING) self in
      let '(r, self, t) := Model_save None now self t in
      match r with
      | Raise e => (Raise e, t)
      | Ok _ => (Ok self, t)
      end
  end.

(** Leaving the block resumes the generator after the [yield], normally or
    with the exception of the block thrown into it: the [try] sets
    [TASK_SUCCESSFUL], the bare [except] sets [TASK_FAILED] and re-raises,
    and [finally] runs [self.save()] on the same object the block was
    given.  An exception of that last [save] would replace the one in
    flight. *)
Definition execute_exit (now : Z) (work : result unit) (self : obj row)
    (t : table row) : result unit * obj row * table row :=
  let self :=
    match work with
    | Ok _ => with_attrs (set_state TASK_SUCCESSFUL) self
    | Raise _ => with_attrs (set_state TASK_FAILED) self
    end in
  let '(r, self, t) := Model_save None now self t in
  match r with
  | Raise e => (Raise e, self, t)
  | Ok _ => (work, self, t)
  end.

(** The wrapped work: code that is handed the yielded object and the
    database, may change both, and completes or raises. *)
Definition work : Type := obj row → table row → result unit * obj row * table row.

(** [with ContentLibraryBlockImportTask.execute(import_task_id) as task: body]. *)
Definition execute (import_task_id now_enter now_exit : Z) (body : work)
    (t : table row) : result unit * table row :=
  match execute_enter import_task_id now_enter t with
  | (Raise e, t) => (Raise e, t)
  | (Ok self, t) =>
      let '(w, self, t) := body self t in
      let '(r, _, t) := execute_exit now_exit w self t in
      (r, t)
  end.

(** [def save_progress(self, progress)]: [self.progress = progress] and
    [self.save(update_fields=['progress', 'updated_at'])]. *)
Definition save_progress (progress : float) (now : Z) (self : obj row)
    (t : table row) : result unit * obj row * table row :=
  let self := with_attrs (set_progress progress) self in
  Model_save (Some ["progress"; "updated_at"]%string) now self t.

(** The state stored for a task. *)
Definition stored_state (k : Z) (t : table row) : option task_state :=
  state <$> rows t !! k.

Definition stored_progress (k : Z) (t : table row) : option float :=
  progress <$> rows t !! k.

(** [A float from 0.0 to 1.0], as the help text of [progress] has it. *)
Definition is_fraction (p : float) : bool :=
  (PrimFloat.leb 0 p && PrimFloat.leb p 1)%float.

(** The key a full [save] of [o] writes under. *)
Definition saved_key (o : obj row) (t : table row) : Z :=
  default (next_pk t) (pk o).

(** The state [execute] records for an outcome of the work. *)
Definition final_state (w : result unit) : task_state :=
  match w with
  | Ok _ => TASK_SUCCESSFUL
  | Raise _ => TASK_FAILED
  end.

(** *** Callers that touch a task through this class only *)

(** Work that only reports progress: [task.save_progress(p)] on the yielded
    object for each entry, in order, after which it completes or raises
    [raises].  A failing [save_progress] ends the work with its error. *)
Record progress_work : Type := ProgressWork {
  updates : list (float * Z);
  raises : option exn
}.

(** The tables after each write of the updates, and their outcome. *)
Fixpoint run_updates (us : list (float * Z)) (self : obj row) (t : table row)
    : list (table row) * (result unit * obj row * table row) :=
  match us with
  | [] => ([], (Ok tt, self, t))
  | (p, now) :: us' =>
      let '(r, self', t') := save_progress p now self t in
      match r with
      | Raise e => ([t'], (Raise e, self', t'))
      | Ok _ =>
          let '(snaps, out) := run_updates us' self' t' in
          (t' :: snaps, out)
      end
  end.

Definition run_work (b : progress_work) : work :=
  λ self t,
    let '(r, self', t') := (run_updates (updates b) self t).2 in
    match r, raises b with
    | Ok _, Some e => (Raise e, self', t')
    | _, _ => (r, self', t')
    end.

(** One use of the class from outside: a [with execute(...)] block around
    progress-reporting work, or [save_progress] on an object the caller
    holds (fresh or stale, whatever its key). *)
Inductive call : Type :=
| CallExecute (import_task_id now_enter now_exit : Z) (body : progress_work)
| CallSaveProgress (self : obj row) (progress : float) (now : Z).

(** The successive tables a call leaves, the last one being the table
    after the call. *)
Definition call_tables (c : call) (t : table row) : list (table row) :=
  match c with
  | CallSaveProgress self p now => [(save_progress p now self t).2]
  | CallExecute k n1 n2 b =>
      match execute_enter k n1 t with
      | (Raise _, t1) => [t1]
      | (Ok self, t1) =>
          t1 :: (run_updates (updates b) self t1).1
             ++ [(execute k n1 n2 (run_work b) t).2]
      end
  end.

Fixpoint run_calls (cs : list call) (t : table row) : list (table row) :=
  match cs with
  | [] => []
  | c :: cs' =>
      let ts := call_tables c t in
      ts ++ run_calls cs' (List.last ts t)
  end.

(** The states task [k] is stored with, from table [t] on. *)
Definition state_trace (k : Z) (cs : list call) (t : table row)
    : list (option task_state) :=
  stored_state k <$> (t :: run_calls cs t).

(** A trace obeys a transition table when it starts at [TASK_CREATED], the
    row is there throughout, and each state is allowed after the one
    before. *)
Fixpoint follows (ok : task_state → task_state → bool) (s : task_state)
    (l : list (option task_state)) : bool :=
  match l with
  | [] => true
  | Some x :: l' => ok s x && follows ok x l'
  | None :: _ => false
  end.

Definition obeys (ok : task_state → task_state → bool)
    (l : list (option task_state)) : bool :=
  match l with
  | Some TASK_CREATED :: l' => follows ok TASK_CREATED l'
  | _ => false
  end.

(** created → running → failed | successful, a write that keeps the state
    counting as no transition. *)
Definition once_through (a b : task_state) : bool :=
  bool_decide (a = b) ||
  match a, b with
  | TASK_CREATED, TASK_RUNNING => true
  | TASK_RUNNING, (TASK_FAILED | TASK_SUCCESSFUL) => true
  | _, _ => false
  end.

(** The same, with a finished task allowed to run again. *)
Definition round_after_round (a b : task_state) : bool :=
  once_through a b ||
  match a, b with
  | (TASK_FAILED | TASK_SUCCESSFUL), TASK_RUNNING => true
  | _, _ => false
  end.

(** Every stored progress is a fraction. *)
Definition all_fractions (t : table row) : bool :=
  bool_decide (map_Forall (λ _ r, is_fraction (progress r) = true) (rows t)).

(** The progress arguments a call passes. *)
Definition call_progress (c : call) : list float :=
  match c with
  | CallExecute _ _ _ b => (updates b).*1
  | CallSaveProgress _ p _ => [p]
  end.

End ContentLibraryBlockImportTask.

(** ** [course_goals/migrations/0007_set_unsubscribe_token_default.py] *)

Module CourseGoalsMigration.

(** [default=] of a field: none, or the callable [uuid.uuid4]. *)
Inductive default_value : Type :=
| NOT_PROVIDED
| uuid_uuid4.

(** The options of [models.UUIDField] the migration sets; an option a
    declaration leaves out has Django's default ([False] for [db_index]
    and [unique]). *)
Record UUIDField : Type := {
  blank : bool;
  db_index : bool;
  default : default_value;
  editable : bool;
  help_text : string;
  null : bool;
  unique : bool
}.

Record AlterField : Type := {
  model_name : string;
  name : string;
  field : UUIDField
}.

Definition operations : list AlterField := [
  {| model_name := "coursegoal";
     name := "unsubscribe_token";
     field := {| blank := true; db_index := false; default := uuid_uuid4;
                 editable := false;
                 help_text := "Used to validate unsubscribe requests without requiring a login";
                 null := true; unique := true |} |};
  {| model_name := "historicalcoursegoal";
     name := "unsubscribe_token";
     field := {| blank := true; db_index := true; default := uuid_uuid4;
                 editable := false;
                 help_text := "Used to validate unsubscribe requests without requiring a login";
                 null := true; unique := false |} |}
].

(** The schema the migrations build: the fields of each model, by model
    and field name.  [AlterField] replaces the definition of a field the
    model has and leaves every other one alone. *)
Definition state_forwards (op : AlterField) (schema : gmap (string * string) UUIDField)
    : gmap (string * string) UUIDField :=
  alter (λ _, field op) (model_name op, name op) schema.

Definition migrate (schema : gmap (string * string) UUIDField)
    : gmap (string * string) UUIDField :=
  fold_left (λ acc op, state_forwards op acc) operations schema.

(** What the options mean for the one column the migration is about.  A row
    is its token, NULL or a 128-bit number. *)
Definition same_token (a b : option N) : bool :=
  match a, b with
  | Some x, Some y => (x =? y)%N
  | _, _ => false
  end.

Definition goal_model (f : UUIDField) : Model (option N) := {|
  field_names := ["unsubscribe_token"]%string;
  pre_save := λ _ _ _ r, r;
  assign := λ n src dst, if String.eqb n "unsubscribe_token" then src else dst;
  conflict := λ a b, unique f && same_token a b
|}.

Definition save (f : UUIDField) : save_method (option N) :=
  @Model_save _ (goal_model f).

(** The token of a new object: the value the caller gives, and without one
    the default, for which [uuid.uuid4] draws [drawn]. *)
Definition initial_token (f : UUIDField) (given : option (option N)) (drawn : N)
    : option N :=
  match given with
  | Some v => v
  | None =>
      match default f with
      | uuid_uuid4 => Some drawn
      | NOT_PROVIDED => None
      end
  end.

(** A model form or the admin takes the posted value of an editable field
    only. *)
Definition form_token (f : UUIDField) (posted current : option N) : option N :=
  if editable f then posted else current.

Definition coursegoal : string * string := ("coursegoal", "unsubscribe_token")%string.
Definition historicalcoursegoal : string * string :=
  ("historicalcoursegoal", "unsubscribe_token")%string.

(** Two stored rows with one and the same token. *)
Definition token_twice (t : table (option N)) : Prop :=
  ∃ k1 k2 u, k1 ≠ k2 ∧ rows t !! k1 = Some (Some u) ∧ rows t !! k2 = Some (Some u).

End CourseGoalsMigration.

(** ** [class ContentLibraryManager(models.Manager)] and the library key *)

Module LibraryLocatorV2.

(** The opaque key of a library: the short name of its organization and its
    slug. *)
Record key : Type := Key { org : string; slug : string }.

End LibraryLocatorV2.

Module ContentLibraryManager.

(** What [QuerySet.get] gives: the one matching object, or one of its two
    errors. *)
Inductive get_result (A : Type) : Type :=
| Got (a : A)
| RaiseDoesNotExist
| RaiseMultipleObjectsReturned.
Arguments Got {A} a.
Arguments RaiseDoesNotExist {A}.
Arguments RaiseMultipleObjectsReturned {A}.

(** The filter [org__short_name=library_key.org, slug=library_key.slug]:
    the join with the organizations, of which [organizations] holds the
    short name by key. *)
Definition matches (organizations : gmap Z string) (library_key : LibraryLocatorV2.key)
    (r : ContentLibrary.row) : bool :=
  bool_decide (organizations !! ContentLibrary.org r =
               Some (LibraryLocatorV2.org library_key)) &&
  bool_decide (ContentLibrary.slug r = LibraryLocatorV2.slug library_key).

(** [def get_by_key(self, library_key)]: [self.get(...)] under that filter.
    The [assert isinstance(library_key, LibraryLocatorV2)] is the type of
    the argument. *)
Definition get_by_key (organizations : gmap Z string)
    (library_key : LibraryLocatorV2.key) (t : table ContentLibrary.row)
    : get_result (obj ContentLibrary.row) :=
  match map_to_list (filter (λ kr, matches organizations library_key kr.2 = true) (rows t)) with
  | [] => RaiseDoesNotExist
  | [(k, r)] => Got (Obj (Some k) r)
  | _ => RaiseMultipleObjectsReturned
  end.

(** [ContentLibrary.library_key]:
    [LibraryLocatorV2(org=self.org.short_name, slug=self.slug)].  The
    constructor of the locator, which is not part of these files, checks
    its two strings; [checks] is that check.  [None] stands for the error
    of a missing organization row or of a refused string. *)
Definition library_key (checks : LibraryLocatorV2.key → bool)
    (organizations : gmap Z string) (self : ContentLibrary.row)
    : option LibraryLocatorV2.key :=
  match organizations !! ContentLibrary.org self with
  | Some short_name =>
      let k := LibraryLocatorV2.Key short_name (ContentLibrary.slug self) in
      if checks k then Some k else None
  | None => None
  end.

End ContentLibraryManager.

(** ** [ContentLibraryPermission.__str__] *)

Module ContentLibraryPermissionStr.

Inductive str_result : Type :=
| Str (s : string)
| AttributeError.

(** [who = self.user.username if self.user else self.group.name] and
    [f"ContentLibraryPermission ({self.access_level} for {who})"].
    [username] and [name] read the related user and group rows; with no
    group, [self.group.name] is an attribute of [None]. *)
Definition __str__ (username name : Z → string) (self : ContentLibraryPermission.row)
    : str_result :=
  let who :=
    match ContentLibraryPermission.user self with
    | Some u => Some (username u)
    | None =>
        match ContentLibraryPermission.group self with
        | Some g => Some (name g)
        | None => None
        end
    end in
  match who with
  | Some who =>
      Str ("ContentLibraryPermission (" ++ ContentLibraryPermission.access_level self
             ++ " for " ++ who ++ ")")
  | None => AttributeError
  end.

End ContentLibraryPermissionStr.

(** ** The models together: foreign keys and [on_delete] *)

Module Relations.

(** The tables of this file and, of the models they point to, what the
    foreign keys need: the short name of each organization and the keys of
    the users and groups. *)
Record world : Type := World {
  organizations : gmap Z string;
  users : gset Z;
  groups : gset Z;
  libraries : table ContentLibrary.row;
  permission_grants : table ContentLibraryPermission.row;
  import_tasks : table ContentLibraryBlockImportTask.row
}.

Definition empty_world : world :=
  World ∅ ∅ ∅ empty_table empty_table empty_table.

(** [org = ForeignKey(Organization, null=False)]. *)
Definition library_refs (w : world) (r : ContentLibrary.row) : bool :=
  bool_decide (is_Some (organizations w !! ContentLibrary.org r)).

(** [library = ForeignKey(ContentLibrary)], [user = ForeignKey(User, null=True)],
    [group = ForeignKey(Group, null=True)]. *)
Definition permission_refs (w : world) (r : ContentLibraryPermission.row) : bool :=
  bool_decide (is_Some (rows (libraries w) !! ContentLibraryPermission.library r)) &&
  match ContentLibraryPermission.user r with
  | Some u => bool_decide (u ∈ users w)
  | None => true
  end &&
  match ContentLibraryPermission.group r with
  | Some g => bool_decide (g ∈ groups w)
  | None => true
  end.

(** [library = ForeignKey(ContentLibrary)]. *)
Definition task_refs (w : world) (r : ContentLibraryBlockImportTask.row) : bool :=
  bool_decide (is_Some (rows (libraries w) !! ContentLibraryBlockImportTask.library r)).

(** A save under the foreign-key constraints of its table: the row it
    writes must point to rows that exist, or the write is refused and the
    table stays.  A save that writes nothing (an empty [update_fields]) is
    not checked. *)
Definition save_checked {F : Type} (refs : F → bool) (save : save_method F)
    : save_method F :=
  λ update_fields now o t,
    let '(r, o', t') := save update_fields now o t in
    match r, update_fields with
    | Ok _, Some [] => (r, o', t')
    | Ok _, _ =>
        match pk o' ≫= (λ k, rows t' !! k) with
        | Some written => if refs written then (r, o', t') else (Raise IntegrityError, o', t)
        | None => (r, o', t')
        end
    | Raise _, _ => (r, o', t')
    end.

(** [DELETE ... WHERE P]. *)
Definition delete_where {F : Type} (P : F → bool) (t : table F) : table F :=
  Table (filter (λ kr, P kr.2 = false) (rows t)) (next_pk t).

(** Deleting a library: [on_delete=models.CASCADE] on both foreign keys to
    it takes its grants and its import tasks along. *)
Definition delete_library (k : Z) (w : world) : world :=
  World (organizations w) (users w) (groups w)
    (Model_delete k (libraries w))
    (delete_where (λ r, ContentLibraryPermission.library r =? k) (permission_grants w))
    (delete_where (λ r, ContentLibraryBlockImportTask.library r =? k) (import_tasks w)).

(** Deleting a user or a group: [on_delete=models.CASCADE] takes the grants
    to it along. *)
Definition delete_user (k : Z) (w : world) : world :=
  World (organizations w) (users w ∖ {[k]}) (groups w) (libraries w)
    (delete_where (λ r, bool_decide (ContentLibraryPermission.user r = Some k))
       (permission_grants w))
    (import_tasks w).

Definition delete_group (k : Z) (w : world) : world :=
  World (organizations w) (users w) (groups w ∖ {[k]}) (libraries w)
    (delete_where (λ r, bool_decide (ContentLibraryPermission.group r = Some k))
       (permission_grants w))
    (import_tasks w).

(** Deleting an organization: [on_delete=models.PROTECT] refuses it, with a
    [ProtectedError], while a library points to it. *)
Definition protected (k : Z) (w : world) : bool :=
  bool_decide (map_Exists (λ _ r, ContentLibrary.org r = k) (rows (libraries w))).

Definition delete_organization (k : Z) (w : world) : option world :=
  if protected k w then None
  else Some (World (delete k (organizations w)) (users w) (groups w) (libraries w)
               (permission_grants w) (import_tasks w)).

(** What happens to a world, one operation at a time. *)
Inductive op : Type :=
| AddOrganization (k : Z) (short_name : string)
| DeleteOrganization (k : Z)
| AddUser (k : Z)
| DeleteUser (k : Z)
| AddGroup (k : Z)
| DeleteGroup (k : Z)
| SaveLibrary (update_fields : option (list string)) (now : Z) (o : obj ContentLibrary.row)
| DeleteLibrary (k : Z)
| SavePermission (update_fields : option (list string)) (now : Z)
    (o : obj ContentLibraryPermission.row)
| DeletePermission (k : Z)
| SaveTask (update_fields : option (list string)) (now : Z)
    (o : obj ContentLibraryBlockImportTask.row)
| DeleteTask (k : Z).

Definition apply_op (c : op) (w : world) : world :=
  match c with
  | AddOrganization k short_name =>
      World (<[k := short_name]> (organizations w)) (users w) (groups w) (libraries w)
        (permission_grants w) (import_tasks w)
  | DeleteOrganization k => default w (delete_organization k w)
  | AddUser k =>
      World (organizations w) ({[k]} ∪ users w) (groups w) (libraries w)
        (permission_grants w) (import_tasks w)
  | DeleteUser k => delete_user k w
  | AddGroup k =>
      World (organizations w) (users w) ({[k]} ∪ groups w) (libraries w)
        (permission_grants w) (import_tasks w)
  | DeleteGroup k => delete_group k w
  | SaveLibrary uf now o =>
      World (organizations w) (users w) (groups w)
        (save_checked (library_refs w) ContentLibrary.save uf now o (libraries w)).2
        (permission_grants w) (import_tasks w)
  | DeleteLibrary k => delete_library k w
  | SavePermission uf now o =>
      World (organizations w) (users w) (groups w) (libraries w)
        (save_checked (permission_refs w) ContentLibraryPermission.save uf now o
           (permission_grants w)).2
        (import_tasks w)
  | DeletePermission k =>
      World (organizations w) (users w) (groups w) (libraries w)
        (Model_delete k (permission_grants w)) (import_tasks w)
  | SaveTask uf now o =>
      World (organizations w) (users w) (groups w) (libraries w) (permission_grants w)
        (save_checked (task_refs w) Model_save uf now o (import_tasks w)).2
  | DeleteTask k =>
      World (organizations w) (users w) (groups w) (libraries w) (permission_grants w)
        (Model_delete k (import_tasks w))
  end.

Definition apply_ops (cs : list op) (w : world) : world :=
  fold_left (λ acc c, apply_op c acc) cs w.

(** Every foreign key of every stored row points to a row that exists. *)
Definition integrity (w : world) : Prop :=
  map_Forall (λ _ r, library_refs w r = true) (rows (libraries w)) ∧
  map_Forall (λ _ r, permission_refs w r = true) (rows (permission_grants w)) ∧
  map_Forall (λ _ r, task_refs w r = true) (rows (import_tasks w)).

End Relations.

(** ** Import tasks under the constraints of their table *)

Module StoredImportTask.

(** [execute] again, over any storage [S] with its [objects.get] and its
    [self.save()]: the same generator, where the save may be refused. *)
Section Over.
Variable S : Type.
Variable get : Z → S → result (obj ContentLibraryBlockImportTask.row).
Variable save : Z → obj ContentLibraryBlockImportTask.row → S →
                result unit * obj ContentLibraryBlockImportTask.row * S.

(** [self = cls.objects.get(pk=import_task_id)],
    [self.state = self.TASK_RUNNING], [self.save()], [yield self]. *)
Definition execute_enter_over (import_task_id now : Z) (s : S)
    : result (obj ContentLibraryBlockImportTask.row) * S :=
  match get import_task_id s with
  | Raise e => (Raise e, s)
  | Ok self =>
      let self := ContentLibraryBlockImportTask.with_attrs
                    (ContentLibraryBlockImportTask.set_state
                       ContentLibraryBlockImportTask.TASK_RUNNING) self in
      let '(r, self, s) := save now self s in
      match r with
      | Raise e => (Raise e, s)
      | Ok _ => (Ok self, s)
      end
  end.

(** After the [yield]: [self.state = self.TASK_SUCCESSFUL], or
    [self.state = self.TASK_FAILED] and [raise] under the bare [except],
    and [self.save()] under [finally], whose own exception replaces the one
    in flight. *)
Definition execute_exit_over (now : Z) (work : result unit)
    (self : obj ContentLibraryBlockImportTask.row) (s : S)
    : result unit * obj ContentLibraryBlockImportTask.row * S :=
  let self :=
    match work with
    | Ok _ => ContentLibraryBlockImportTask.with_attrs
                (ContentLibraryBlockImportTask.set_state
                   ContentLibraryBlockImportTask.TASK_SUCCESSFUL) self
    | Raise _ => ContentLibraryBlockImportTask.with_attrs
                   (ContentLibraryBlockImportTask.set_state
                      ContentLibraryBlockImportTask.TASK_FAILED) self
    end in
  let '(r, self, s) := save now self s in
  match r with
  | Raise e => (Raise e, self, s)
  | Ok _ => (work, self, s)
  end.

Definition execute_over (import_task_id now_enter now_exit : Z)
    (body : obj ContentLibraryBlockImportTask.row → S →
            result unit * obj ContentLibraryBlockImportTask.row * S)
    (s : S) : result unit * S :=
  match execute_enter_over import_task_id now_enter s with
  | (Raise e, s) => (Raise e, s)
  | (Ok self, s) =>
      let '(w, self, s) := body self s in
      let '(r, _, s) := execute_exit_over now_exit w self s in
      (r, s)
  end.
End Over.

(** What the table asks of a row beside its key: the library it points to
    exists, and no column is NULL ([created_at] and [updated_at] are the
    columns an object can hold no value for). *)
Definition storable (w : Relations.world) (r : ContentLibraryBlockImportTask.row) : bool :=
  Relations.task_refs w r &&
  bool_decide (is_Some (ContentLibraryBlockImportTask.created_at r)) &&
  bool_decide (is_Some (ContentLibraryBlockImportTask.updated_at r)).

Definition with_import_tasks (t : table ContentLibraryBlockImportTask.row)
    (w : Relations.world) : Relations.world :=
  Relations.World (Relations.organizations w) (Relations.users w) (Relations.groups w)
    (Relations.libraries w) (Relations.permission_grants w) t.

(** [self.save(update_fields=...)] of a task in a world: the row it writes
    must be storable, or the write is refused with an [IntegrityError] and
    the world stays. *)
Definition save (update_fields : option (list string)) (now : Z)
    (self : obj ContentLibraryBlockImportTask.row) (w : Relations.world)
    : result unit * obj ContentLibraryBlockImportTask.row * Relations.world :=
  let '(r, self', t') :=
    Relations.save_checked (storable w) Model_save update_fields now self
      (Relations.import_tasks w) in
  (r, self', with_import_tasks t' w).

Definition objects_get (k : Z) (w : Relations.world)
    : result (obj ContentLibraryBlockImportTask.row) :=
  Orm.objects_get k (Relations.import_tasks w).

(** [ContentLibraryBlockImportTask.objects.create(library=..., course_id=...)]. *)
Definition objects_create (now library : Z) (course_id : string) (w : Relations.world)
    : result unit * obj ContentLibraryBlockImportTask.row * Relations.world :=
  save None now (Obj None (ContentLibraryBlockImportTask.new_row library course_id)) w.

(** The wrapped work, which may change anything in the world. *)
Definition work : Type :=
  obj ContentLibraryBlockImportTask.row → Relations.world →
  result unit * obj ContentLibraryBlockImportTask.row * Relations.world.

Definition execute_enter : Z → Z → Relations.world →
    result (obj ContentLibraryBlockImportTask.row) * Relations.world :=
  execute_enter_over Relations.world objects_get (save None).

Definition execute_exit : Z → result unit → obj ContentLibraryBlockImportTask.row →
    Relations.world →
    result unit * obj ContentLibraryBlockImportTask.row * Relations.world :=
  execute_exit_over Relations.world (save None).

Definition execute (import_task_id now_enter now_exit : Z) (body : work)
    (w : Relations.world) : result unit * Relations.world :=
  execute_over Relations.world objects_get (save None)
    import_task_id now_enter now_exit body w.

(** The row a full save of [self] writes to the tasks [t]: the object, with
    the instant of the save as [updated_at], and as [created_at] too when it
    inserts. *)
Definition written (now : Z) (self : obj ContentLibraryBlockImportTask.row)
    (t : table ContentLibraryBlockImportTask.row) : ContentLibraryBlockImportTask.row :=
  ContentLibraryBlockImportTask.Row
    (ContentLibraryBlockImportTask.library (attrs self))
    (ContentLibraryBlockImportTask.state (attrs self))
    (ContentLibraryBlockImportTask.progress (attrs self))
    (ContentLibraryBlockImportTask.course_id (attrs self))
    (match pk self ≫= (λ k, rows t !! k) with
     | Some _ => ContentLibraryBlockImportTask.created_at (attrs self)
     | None => Some now
     end)
    (Some now).

(** The final save of [execute] is accepted when the library of the object
    exists and, where the save updates a row, the object has its
    [created_at]. *)
Definition final_save_accepted (self : obj ContentLibraryBlockImportTask.row)
    (w : Relations.world) : bool :=
  bool_decide (is_Some (rows (Relations.libraries w)
                          !! ContentLibraryBlockImportTask.library (attrs self))) &&
  (bool_decide (is_Some (ContentLibraryBlockImportTask.created_at (attrs self))) ||
   bool_decide (pk self ≫= (λ k, rows (Relations.import_tasks w) !! k) = None)).

End StoredImportTask.

(** * Properties *)

(** ** The ORM contract *)

Section OrmFacts.
Context {F : Type} `{Model F}.

Lemma violates_false (k : Z) (r : F) (m : gmap Z F) :
  violates k r m = false ↔
  ∀ k' r', m !! k' = Some r' → k' ≠ k → conflict r r' = false.
Proof.
  unfold violates. rewrite bool_decide_eq_false, map_Exists_lookup. split.
  - intros Hno k' r' Hk' Hne. destruct (conflict r r') eqn:E; [|done].
    exfalso. apply Hno. by exists k', r'.
  - intros Hall (k' & r' & Hk' & Hne & Hc). rewrite (Hall k' r') in Hc; done.
Qed.

(** [Model.save] raises database errors only, never a validation error. *)
Lemma Model_save_no_validation_error uf now (o : obj F) (t : table F) msg :
  (Model_save uf now o t).1.1 ≠ Raise (ValidationError msg).
Proof.
  unfold Model_save, Model_save_table.
  repeat (case_match; simpl; try done).
Qed.

Lemma Model_delete_consistent (k : Z) (t : table F) :
  consistent t → consistent (Model_delete k t).
Proof.
  intros Hc k1 k2 r1 r2 H1 H2 Hne. simpl in *.
  apply lookup_delete_Some in H1 as [_ H1].
  apply lookup_delete_Some in H2 as [_ H2]. exact (Hc k1 k2 r1 r2 H1 H2 Hne).
Qed.

Lemma empty_table_consistent : consistent (@empty_table F).
Proof. intros k1 k2 r1 r2 H1. simpl in H1. by rewrite lookup_empty in H1. Qed.

(** Whatever is written, through a [save] that keeps the indexes, the
    indexes hold. *)
Lemma apply_writes_consistent (save : save_method F) (ws : list (write F)) (t : table F) :
  (∀ uf now o t', consistent t' → consistent (save uf now o t').2) →
  consistent t → consistent (apply_writes save ws t).
Proof.
  intros Hsave. revert t. induction ws as [|w ws IH]; intros t Hc; simpl; [done|].
  apply IH. destruct w; simpl; [by apply Hsave | by apply Model_delete_consistent].
Qed.

Hypothesis conflict_sym : ∀ a b : F, conflict a b = conflict b a.

Lemma consistent_insert (k : Z) (r : F) (t : table F) n :
  consistent t → violates k r (rows t) = false →
  consistent (Table (<[k := r]> (rows t)) n).
Proof.
  intros Hc Hv. rewrite violates_false in Hv.
  intros k1 k2 r1 r2 H1 H2 Hne. simpl in *.
  destruct (decide (k1 = k)) as [->|N1], (decide (k2 = k)) as [->|N2];
    simplify_map_eq; eauto.
Qed.

Lemma Model_save_table_consistent uf now (o : obj F) (t : table F) :
  consistent t → consistent (Model_save_table uf now o t).2.
Proof.
  intros Hc. unfold Model_save_table.
  repeat (case_match; simpl; try done); by apply consistent_insert.
Qed.

Lemma Model_save_consistent uf now (o : obj F) (t : table F) :
  consistent t → consistent (Model_save uf now o t).2.
Proof.
  intros Hc. unfold Model_save.
  repeat (case_match; simpl; try done); by apply Model_save_table_consistent.
Qed.

End OrmFacts.

(** ** Permission grants: the guard of [save] *)

Section PermissionFacts.
Import ContentLibraryPermission.

Lemma guard_iff_grantees (r : row) :
  Bool.eqb (negb (truthy (user r))) (negb (truthy (group r))) = true ↔
  grantees r ≠ 1%nat.
Proof. unfold grantees. destruct (user r), (group r); simpl; split; (done || lia). Qed.

Lemma save_over_rejects super uf now (self : obj row) (t : table row) :
  grantees (attrs self) ≠ 1%nat →
  save_over super uf now self t =
    (Raise (ValidationError "One and only one of 'user' and 'group' must be set."), self, t).
Proof.
  intros Hg. apply guard_iff_grantees in Hg. unfold save_over. by rewrite Hg.
Qed.

Lemma save_over_delegates super uf now (self : obj row) (t : table row) :
  grantees (attrs self) = 1%nat →
  save_over super uf now self t = super uf now self t.
Proof.
  intros Hg. unfold save_over.
  destruct (Bool.eqb _ _) eqn:E; [|done].
  apply guard_iff_grantees in E. done.
Qed.

Lemma permission_conflict_sym (a b : row) : conflict a b = conflict b a.
Proof.
  simpl. unfold same_library_user, same_library_group, same_key.
  rewrite (Z.eqb_sym (library a)).
  destruct (user a) as [ua|], (user b) as [ub|],
           (group a) as [ga|], (group b) as [gb|];
    rewrite ?(Z.eqb_sym ua ub), ?(Z.eqb_sym ga gb); done.
Qed.

Lemma permission_save_consistent uf now (self : obj row) (t : table row) :
  consistent t → consistent (save uf now self t).2.
Proof.
  intros Hc. unfold save, save_over. case_match; [done|].
  apply Model_save_consistent; [apply permission_conflict_sym | done].
Qed.
End PermissionFacts.

(** C1: every [ContentLibraryPermission.save] with none or both of [user]
    and [group] set is rejected with the validation error, and every one with
    exactly one of them set is accepted: it is the inherited [save] that
    runs, which raises no validation error and, for a new grant no stored
    grant conflicts with, stores the row under the next key. *)
Theorem permission_save_validates uf now
    (self : obj ContentLibraryPermission.row) (t : table ContentLibraryPermission.row) :
  (ContentLibraryPermission.grantees (attrs self) ≠ 1%nat →
     (ContentLibraryPermission.save uf now self t).1.1 =
       Raise (ValidationError "One and only one of 'user' and 'group' must be set.")) ∧
  (ContentLibraryPermission.grantees (attrs self) = 1%nat →
     ContentLibraryPermission.save uf now self t = Model_save uf now self t ∧
     (∀ msg, (ContentLibraryPermission.save uf now self t).1.1 ≠ Raise (ValidationError msg)) ∧
     (uf = None → pk self = None →
      violates (next_pk t) (attrs self) (rows t) = false →
      (ContentLibraryPermission.save uf now self t).1.1 = Ok tt ∧
      rows (ContentLibraryPermission.save uf now self t).2 !! next_pk t = Some (attrs self))).
Proof.
  split.
  - intros Hg. unfold ContentLibraryPermission.save. by rewrite save_over_rejects.
  - intros Hg. unfold ContentLibraryPermission.save.
    rewrite save_over_delegates by done. split; [done|]. split.
    + intros msg. apply Model_save_no_validation_error.
    + intros -> Hpk Hv. unfold Model_save, Model_save_table. rewrite Hpk.
      simpl in *. rewrite Hv. simpl. by rewrite lookup_insert_eq.
Qed.

Lemma permission_save_validates_witness :
  (ContentLibraryPermission.save None 0
     (Obj None (ContentLibraryPermission.Row 1 None None "read")) empty_table).1.1 =
    Raise (ValidationError "One and only one of 'user' and 'group' must be set.") ∧
  (ContentLibraryPermission.save None 0
     (Obj None (ContentLibraryPermission.Row 1 (Some 7) (Some 3) "read")) empty_table).1.1 =
    Raise (ValidationError "One and only one of 'user' and 'group' must be set.") ∧
  (ContentLibraryPermission.save None 0
     (Obj None (ContentLibraryPermission.Row 1 (Some 7) None "read")) empty_table).1.1 = Ok tt.
Proof.
  split; [|split].
  - apply (proj1 (permission_save_validates None 0
      (Obj None (ContentLibraryPermission.Row 1 None None "read")) empty_table)).
    vm_compute. lia.
  - apply (proj1 (permission_save_validates None 0
      (Obj None (ContentLibraryPermission.Row 1 (Some 7) (Some 3) "read")) empty_table)).
    vm_compute. lia.
  - apply (proj2 (permission_save_validates None 0
      (Obj None (ContentLibraryPermission.Row 1 (Some 7) None "read")) empty_table));
      reflexivity.
Defined.

(** C10: when [ContentLibraryPermission.save] rejects a write, it raises
    before the inherited [save] is reached: whatever that [save] would do,
    the outcome is the validation error with the table and the object as
    they were. *)
Theorem permission_save_rejects_before_write uf now
    (self : obj ContentLibraryPermission.row) (t : table ContentLibraryPermission.row) :
  ContentLibraryPermission.grantees (attrs self) ≠ 1%nat →
  (∀ super : save_method ContentLibraryPermission.row,
     ContentLibraryPermission.save_over super uf now self t =
       (Raise (ValidationError "One and only one of 'user' and 'group' must be set."), self, t)) ∧
  ContentLibraryPermission.save uf now self t =
    (Raise (ValidationError "One and only one of 'user' and 'group' must be set."), self, t).
Proof.
  intros Hg. split.
  - intros super. by apply save_over_rejects.
  - by apply save_over_rejects.
Qed.

Lemma permission_save_rejects_before_write_witness :
  let t := (ContentLibraryPermission.save None 0
              (Obj None (ContentLibraryPermission.Row 1 (Some 7) None "read")) empty_table).2 in
  let self := Obj (Some 1) (ContentLibraryPermission.Row 1 (Some 7) (Some 3) "admin") in
  ContentLibraryPermission.save None 5 self t =
    (Raise (ValidationError "One and only one of 'user' and 'group' must be set."), self, t).
Proof.
  intros t self.
  refine (proj2 (permission_save_rejects_before_write None 5 self t _)).
  vm_compute. lia.
Defined.

(** ** Import tasks: what the two saves write *)

Section TaskFacts.
Import ContentLibraryBlockImportTask.

Lemma task_pre_save_all add now (r : row) :
  run_pre_save field_names add now r =
    Row (library r) (state r) (progress r) (course_id r)
        (if add then Some now else created_at r) (Some now).
Proof. destruct r, add; reflexivity. Qed.

Lemma task_write_all (src dst : row) : write_columns field_names src dst = src.
Proof. destruct src; reflexivity. Qed.

Lemma task_pre_save_progress now (r : row) :
  run_pre_save ["progress"; "updated_at"]%string false now r =
    Row (library r) (state r) (progress r) (course_id r) (created_at r) (Some now).
Proof. destruct r; reflexivity. Qed.

Lemma task_write_progress (src dst : row) :
  write_columns ["progress"; "updated_at"]%string src dst =
    Row (library dst) (state dst) (progress src) (course_id dst)
        (created_at dst) (updated_at src).
Proof. reflexivity. Qed.

Lemma task_never_violates k (r : row) (m : gmap Z row) : violates k r m = false.
Proof. by apply violates_false. Qed.

Local Arguments run_pre_save : simpl never.
Local Arguments write_columns : simpl never.
Local Arguments violates : simpl never.

(** A full [save] of a task always succeeds; the row under its key is then
    the object, field for field, with the state and the progress the
    object had; no other row changes. *)
Lemma task_save now (o : obj row) (t : table row) :
  ∃ r' t',
    Model_save None now o t = (Ok tt, Obj (Some (saved_key o t)) r', t') ∧
    rows t' !! saved_key o t = Some r' ∧
    state r' = state (attrs o) ∧
    progress r' = progress (attrs o) ∧
    (∀ j, j ≠ saved_key o t → rows t' !! j = rows t !! j).
Proof.
  unfold Model_save, Model_save_table, saved_key.
  destruct (pk o) as [k|]; simpl.
  - destruct (rows t !! k) as [old|] eqn:Hk; rewrite task_never_violates.
    + rewrite task_write_all, task_pre_save_all.
      eexists _, _. split; [reflexivity|]. simpl.
      rewrite lookup_insert_eq. repeat split; try done.
      intros j Hj. by rewrite lookup_insert_ne.
    + rewrite !task_pre_save_all.
      eexists _, _. split; [reflexivity|]. simpl.
      rewrite lookup_insert_eq. repeat split; try done.
      intros j Hj. by rewrite lookup_insert_ne.
  - rewrite task_never_violates, task_pre_save_all.
    eexists _, _. split; [reflexivity|]. simpl.
    rewrite lookup_insert_eq. repeat split; try done.
    intros j Hj. by rewrite lookup_insert_ne.
Qed.

(** [save_progress], case by case. *)
Lemma save_progress_eq p now (self : obj row) (t : table row) :
  save_progress p now self t =
    let a := attrs self in
    let mine := Row (library a) (state a) p (course_id a) (created_at a) (Some now) in
    match pk self with
    | None =>
        (Raise (ValueError "Cannot force an update in save() with no primary key."),
         Obj None (set_progress p a), t)
    | Some k =>
        match rows t !! k with
        | Some old =>
            (Ok tt, Obj (Some k) mine,
             Table (<[k := Row (library old) (state old) p (course_id old)
                                (created_at old) (Some now)]> (rows t)) (next_pk t))
        | None =>
            (Raise (DatabaseError "Save with update_fields did not affect any rows."),
             Obj (Some k) mine, t)
        end
    end.
Proof.
  unfold save_progress, Model_save.
  change (known_fields ["progress"; "updated_at"]%string) with true. cbv iota.
  unfold Model_save_table, with_attrs. simpl pk. simpl attrs.
  destruct (pk self) as [k|]; [|reflexivity].
  simpl default. rewrite task_pre_save_progress.
  destruct (rows t !! k) as [old|]; [|reflexivity].
  rewrite task_never_violates, task_write_progress. reflexivity.
Qed.

Lemma save_progress_stored_state p now (self : obj row) (t : table row) j :
  stored_state j (save_progress p now self t).2 = stored_state j t.
Proof.
  rewrite save_progress_eq. unfold stored_state. simpl.
  destruct (pk self) as [k|]; [|done].
  destruct (rows t !! k) as [old|] eqn:Hk; [|done]. simpl.
  destruct (decide (j = k)) as [->|Hne].
  - by rewrite lookup_insert_eq, Hk.
  - by rewrite lookup_insert_ne.
Qed.

Lemma save_progress_self p now (self : obj row) (t : table row) :
  pk (save_progress p now self t).1.2 = pk self ∧
  state (attrs (save_progress p now self t).1.2) = state (attrs self) ∧
  progress (attrs (save_progress p now self t).1.2) = p.
Proof.
  rewrite save_progress_eq. simpl.
  destruct (pk self) as [k|]; [|done].
  by destruct (rows t !! k).
Qed.

(** [execute] up to its [yield], when the task is there. *)
Lemma execute_enter_eq k now (t : table row) (r : row) :
  rows t !! k = Some r →
  let running := Row (library r) TASK_RUNNING (progress r) (course_id r)
                     (created_at r) (Some now) in
  execute_enter k now t =
    (Ok (Obj (Some k) running), Table (<[k := running]> (rows t)) (next_pk t)).
Proof.
  intros Hk. unfold execute_enter, objects_get. rewrite Hk.
  unfold Model_save, Model_save_table, with_attrs. simpl.
  rewrite Hk, task_never_violates, task_write_all. reflexivity.
Qed.

Lemma execute_enter_missing k now (t : table row) :
  rows t !! k = None → execute_enter k now t = (Raise DoesNotExist, t).
Proof. intros Hk. unfold execute_enter, objects_get. by rewrite Hk. Qed.

Lemma execute_exit_spec now (w : result unit) (self : obj row) (t : table row) :
  ∃ r' t',
    execute_exit now w self t = (w, Obj (Some (saved_key self t)) r', t') ∧
    rows t' !! saved_key self t = Some r' ∧
    state r' = final_state w ∧
    progress r' = progress (attrs self) ∧
    (∀ j, j ≠ saved_key self t → rows t' !! j = rows t !! j).
Proof.
  unfold execute_exit.
  set (self' := match w with
                | Ok _ => with_attrs (set_state TASK_SUCCESSFUL) self
                | Raise _ => with_attrs (set_state TASK_FAILED) self
                end).
  assert (Hkey : saved_key self' t = saved_key self t) by (by destruct w).
  assert (Hst : state (attrs self') = final_state w) by (by destruct w).
  assert (Hpr : progress (attrs self') = progress (attrs self)) by (by destruct w).
  destruct (task_save now self' t) as (r' & t' & Heq & Hrow & Hs & Hp & Hfr).
  rewrite Heq, Hkey in *. exists r', t'. repeat split; try done; congruence.
Qed.
End TaskFacts.

(** C5: a call of [save_progress] writes the progress and the last-updated
    instant of the row of its object and nothing else: the key sequence and
    every other row stay, each stored row keeps its library, state, course
    and creation instant, so the stored state of every task is what it was,
    and when the row is there it ends up with the given progress and the
    instant of the call.  The state of the object is not changed either. *)
Theorem save_progress_writes_progress_and_timestamp_only p now
    (self : obj ContentLibraryBlockImportTask.row)
    (t : table ContentLibraryBlockImportTask.row) :
  let out := ContentLibraryBlockImportTask.save_progress p now self t in
  next_pk out.2 = next_pk t ∧
  (∀ j, ContentLibraryBlockImportTask.stored_state j out.2 =
        ContentLibraryBlockImportTask.stored_state j t) ∧
  (∀ j, rows t !! j = None → rows out.2 !! j = None) ∧
  (∀ j old, rows t !! j = Some old →
     ∃ p' u', rows out.2 !! j =
       Some (ContentLibraryBlockImportTask.Row
               (ContentLibraryBlockImportTask.library old)
               (ContentLibraryBlockImportTask.state old) p'
               (ContentLibraryBlockImportTask.course_id old)
               (ContentLibraryBlockImportTask.created_at old) u')) ∧
  (∀ k old, pk self = Some k → rows t !! k = Some old →
     out.1.1 = Ok tt ∧
     rows out.2 =
       <[k := ContentLibraryBlockImportTask.Row
                (ContentLibraryBlockImportTask.library old)
                (ContentLibraryBlockImportTask.state old) p
                (ContentLibraryBlockImportTask.course_id old)
                (ContentLibraryBlockImportTask.created_at old) (Some now)]> (rows t)) ∧
  ContentLibraryBlockImportTask.state (attrs out.1.2) =
    ContentLibraryBlockImportTask.state (attrs self).
Proof.
  intros out. subst out. split; [|split; [|split; [|split; [|split]]]].
  - rewrite save_progress_eq. simpl.
    destruct (pk self) as [k|]; [|done]. by destruct (rows t !! k).
  - intros j. apply save_progress_stored_state.
  - intros j Hj. rewrite save_progress_eq. simpl.
    destruct (pk self) as [k|]; [|done].
    destruct (rows t !! k) as [old|] eqn:Hk; [|done]. simpl.
    rewrite lookup_insert_ne; [done|congruence].
  - intros j old Hj. rewrite save_progress_eq. simpl.
    destruct (pk self) as [k|]; [|destruct old; eauto].
    destruct (rows t !! k) as [old'|] eqn:Hk; [|destruct old; eauto]. simpl.
    destruct (decide (k = j)) as [->|Hne].
    + rewrite lookup_insert_eq. simplify_eq. eauto.
    + rewrite lookup_insert_ne by done. destruct old; eauto.
  - intros k old Hpk Hk. rewrite save_progress_eq. simpl. by rewrite Hpk, Hk.
  - apply save_progress_self.
Qed.

Lemma save_progress_writes_progress_and_timestamp_only_witness :
  let t := (objects_create 5 (ContentLibraryBlockImportTask.new_row 1 "course-v1:a+b+c")
              empty_table).2 in
  let stale := Obj (Some 1)
                 (ContentLibraryBlockImportTask.Row 9
                    ContentLibraryBlockImportTask.TASK_PENDING 0%float "other" None None) in
  rows (ContentLibraryBlockImportTask.save_progress 0.5%float 8 stale t).2 =
    <[1 := ContentLibraryBlockImportTask.Row 1
             ContentLibraryBlockImportTask.TASK_CREATED 0.5%float "course-v1:a+b+c"
             (Some 5) (Some 8)]> (rows t).
Proof.
  intros t stale.
  destruct (save_progress_writes_progress_and_timestamp_only 0.5%float 8 stale t)
    as (_ & _ & _ & _ & Hrow & _).
  apply (Hrow 1 (ContentLibraryBlockImportTask.Row 1
                   ContentLibraryBlockImportTask.TASK_CREATED 0%float "course-v1:a+b+c"
                   (Some 5) (Some 5))); reflexivity.
Defined.

(** C6: on a task that is there, [execute] loads its row, sets the state of
    the loaded object to running, saves it, and only then hands the object
    to the work: the work starts on an object in state running and on a
    table in which the task is stored as running.  With no such task the
    work is never started. *)
Theorem execute_marks_running_before_the_work k now
    (t : table ContentLibraryBlockImportTask.row) (r : ContentLibraryBlockImportTask.row) :
  rows t !! k = Some r →
  ∃ self t1,
    ContentLibraryBlockImportTask.execute_enter k now t = (Ok self, t1) ∧
    self = Obj (Some k)
             (ContentLibraryBlockImportTask.Row
                (ContentLibraryBlockImportTask.library r)
                ContentLibraryBlockImportTask.TASK_RUNNING
                (ContentLibraryBlockImportTask.progress r)
                (ContentLibraryBlockImportTask.course_id r)
                (ContentLibraryBlockImportTask.created_at r) (Some now)) ∧
    rows t1 !! k = Some (attrs self) ∧
    ContentLibraryBlockImportTask.stored_state k t1 =
      Some ContentLibraryBlockImportTask.TASK_RUNNING ∧
    ∀ now_exit (body : ContentLibraryBlockImportTask.work),
      ContentLibraryBlockImportTask.execute k now now_exit body t =
        let '(w, self', t2) := body self t1 in
        let '(res, _, t3) := ContentLibraryBlockImportTask.execute_exit now_exit w self' t2 in
        (res, t3).
Proof.
  intros Hk. eexists _, _. split; [by apply execute_enter_eq|].
  split; [reflexivity|]. split; [simpl; by rewrite lookup_insert_eq|].
  split.
  - unfold ContentLibraryBlockImportTask.stored_state. simpl.
    by rewrite lookup_insert_eq.
  - intros now_exit body. unfold ContentLibraryBlockImportTask.execute.
    by rewrite (execute_enter_eq k now t r Hk).
Qed.

Lemma execute_marks_running_before_the_work_witness :
  let t := (objects_create 5 (ContentLibraryBlockImportTask.new_row 1 "course-v1:a+b+c")
              empty_table).2 in
  ∃ self t1,
    ContentLibraryBlockImportTask.execute_enter 1 10 t = (Ok self, t1) ∧
    ContentLibraryBlockImportTask.stored_state 1 t1 =
      Some ContentLibraryBlockImportTask.TASK_RUNNING.
Proof.
  intros t.
  destruct (execute_marks_running_before_the_work 1 10 t
              (ContentLibraryBlockImportTask.Row 1
                 ContentLibraryBlockImportTask.TASK_CREATED 0%float "course-v1:a+b+c"
                 (Some 5) (Some 5)) eq_refl)
    as (self & t1 & Henter & _ & _ & Hst & _).
  by exists self, t1.
Defined.

(** The work is not started for a task that does not exist. *)
Lemma execute_missing_task k n1 n2 (body : ContentLibraryBlockImportTask.work)
    (t : table ContentLibraryBlockImportTask.row) :
  rows t !! k = None →
  ContentLibraryBlockImportTask.execute k n1 n2 body t = (Raise DoesNotExist, t).
Proof.
  intros Hk. unfold ContentLibraryBlockImportTask.execute.
  by rewrite execute_enter_missing.
Qed.


(** ** Import tasks under a sequence of calls *)

Section TaskRuns.
Import ContentLibraryBlockImportTask.

Lemma all_fractions_spec (t : table row) :
  all_fractions t = true ↔
  ∀ j r, rows t !! j = Some r → is_fraction (progress r) = true.
Proof. unfold all_fractions. by rewrite bool_decide_eq_true. Qed.

Lemma last_cons_default {A} (x : A) (l : list A) (d : A) :
  List.last (x :: l) d = List.last l x.
Proof.
  revert x d. induction l as [|y l IH]; intros x d; [done|].
  change (List.last (y :: l) d = List.last (y :: l) x). by rewrite !IH.
Qed.

(** Progress-reporting work keeps the key and the state of the object, and
    the stored state of every task, at each of its writes. *)
Lemma run_updates_state us : ∀ (self : obj row) (t : table row),
  let out := run_updates us self t in
  pk out.2.1.2 = pk self ∧
  state (attrs out.2.1.2) = state (attrs self) ∧
  out.2.2 = List.last out.1 t ∧
  ∀ j, Forall (λ x, stored_state j x = stored_state j t) out.1.
Proof.
  induction us as [|[p now] us IH]; intros self t; simpl.
  - by repeat split.
  - destruct (save_progress p now self t) as [[r self1] t1] eqn:Hsp.
    pose proof (save_progress_self p now self t) as (Hpk & Hst & _).
    pose proof (save_progress_stored_state p now self t) as Hss.
    rewrite Hsp in Hpk, Hst, Hss. simpl in Hpk, Hst, Hss.
    destruct r as [[]|e]; simpl.
    + specialize (IH self1 t1). simpl in IH.
      destruct (run_updates us self1 t1) as [snaps [[r' self2] t2]].
      simpl in *. destruct IH as (IH1 & IH2 & IH3 & IH4).
      split; [congruence|]. split; [congruence|]. split.
      * rewrite IH3. symmetry. apply (last_cons_default t1 snaps t).
      * intros j. constructor; [done|].
        eapply Forall_impl; [apply IH4|]. intros x Hx. simpl in Hx. by rewrite Hx.
    + repeat split; try done. intros j. by repeat constructor.
Qed.

(** With fractions given, it leaves fractions only. *)
Lemma run_updates_fractions us : ∀ (self : obj row) (t : table row),
  Forall (λ u, is_fraction u.1 = true) us →
  is_fraction (progress (attrs self)) = true →
  all_fractions t = true →
  let out := run_updates us self t in
  is_fraction (progress (attrs out.2.1.2)) = true ∧
  all_fractions out.2.2 = true ∧
  Forall (λ x, all_fractions x = true) out.1.
Proof.
  induction us as [|[p now] us IH]; intros self t Hus Hself Ht; simpl.
  - repeat split; try done.
  - apply Forall_cons in Hus as [Hp Hus]. simpl in Hp.
    assert (Hsp : is_fraction (progress (attrs (save_progress p now self t).1.2)) = true
                  ∧ all_fractions (save_progress p now self t).2 = true).
    { rewrite save_progress_eq. simpl.
      destruct (pk self) as [k|]; [|done].
      destruct (rows t !! k) as [old|] eqn:Hk; [|done]. simpl. split; [done|].
      apply all_fractions_spec. intros j r. simpl.
      destruct (decide (k = j)) as [->|Hne].
      - rewrite lookup_insert_eq. by intros [= <-].
      - rewrite lookup_insert_ne by done. by apply all_fractions_spec. }
    destruct (save_progress p now self t) as [[r self1] t1]. simpl in Hsp.
    destruct Hsp as [Hs1 Ht1]. destruct r as [[]|e]; simpl.
    + specialize (IH self1 t1 Hus Hs1 Ht1). simpl in IH.
      destruct (run_updates us self1 t1) as [snaps [[r' self2] t2]].
      simpl in *. destruct IH as (IH1 & IH2 & IH3). by repeat split; try constructor.
    + by repeat split; try constructor.
Qed.

Lemma run_work_eq (b : progress_work) (self : obj row) (t : table row) :
  ∃ w, run_work b self t =
         (w, (run_updates (updates b) self t).2.1.2, (run_updates (updates b) self t).2.2).
Proof.
  unfold run_work.
  destruct (run_updates (updates b) self t) as [snaps [[r self'] t']]. simpl.
  destruct r as [[]|e], (raises b); eauto.
Qed.

Lemma follows_app ok s s' (l1 l2 : list (option task_state)) :
  follows ok s l1 = true →
  List.last l1 (Some s) = Some s' →
  follows ok s' l2 = true →
  follows ok s (l1 ++ l2) = true.
Proof.
  revert s. induction l1 as [|[x|] l1 IH]; intros s H1 Hlast H2; simpl in H1 |- *.
  - simpl in Hlast. by simplify_eq.
  - apply andb_true_iff in H1 as [Hx H1]. rewrite Hx. simpl.
    rewrite last_cons_default in Hlast. by apply IH.
  - done.
Qed.

Lemma round_after_round_refl s : round_after_round s s = true.
Proof. by destruct s. Qed.

Lemma follows_stutter s (l : list (option task_state)) :
  Forall (λ x, x = Some s) l →
  follows round_after_round s l = true ∧ List.last l (Some s) = Some s.
Proof.
  induction 1 as [|x l -> Hl [IH1 IH2]]; simpl; [done|].
  rewrite round_after_round_refl, IH1. split; [done|]. by destruct l.
Qed.

Lemma last_fmap {A B} (f : A → B) (l : list A) (d : A) :
  List.last (f <$> l) (f d) = f (List.last l d).
Proof. induction l as [|x [|y l] IH]; simpl in *; done. Qed.

(** The tables of a [with execute(...)] block around progress-reporting
    work, on a task that is there: the table with the task running, the
    tables of the progress updates, the table with the final state. *)
Lemma call_tables_execute k n1 n2 (b : progress_work) (t : table row) (r : row) :
  rows t !! k = Some r →
  ∃ t1 snaps t3 w r',
    call_tables (CallExecute k n1 n2 b) t = t1 :: snaps ++ [t3] ∧
    stored_state k t1 = Some TASK_RUNNING ∧
    (∀ j, j ≠ k → stored_state j t1 = stored_state j t) ∧
    (∀ j, Forall (λ x, stored_state j x = stored_state j t1) snaps) ∧
    rows t3 !! k = Some r' ∧ state r' = final_state w ∧
    (∀ j, j ≠ k → rows t3 !! j = rows (List.last snaps t1) !! j) ∧
    (all_fractions t = true →
     Forall (λ u, is_fraction u.1 = true) (updates b) →
     Forall (λ x, all_fractions x = true) (t1 :: snaps ++ [t3])).
Proof.
  intros Hk.
  pose proof (execute_enter_eq k n1 t r Hk) as Henter. cbv zeta in Henter.
  unfold call_tables, execute. rewrite Henter.
  set (self := Obj (Some k) _) in *. set (t1 := Table _ _) in *.
  destruct (run_work_eq b self t1) as [w Hw]. rewrite Hw.
  pose proof (run_updates_state (updates b) self t1) as Hst.
  pose proof (run_updates_fractions (updates b) self t1) as Hfr.
  cbv zeta in Hst, Hfr.
  destruct (run_updates (updates b) self t1) as [snaps [[r0 self'] t2]].
  cbn [fst snd] in *. destruct Hst as (Hpk & _ & Hlast & Hsnaps).
  destruct (execute_exit_spec n2 w self' t2) as (r' & t3 & Hexit & Hrow & Hfin & Hpr & Hoth).
  rewrite Hexit. cbn [fst snd].
  assert (Hkey : saved_key self' t2 = k) by (unfold saved_key; by rewrite Hpk).
  rewrite Hkey in *.
  exists t1, snaps, t3, w, r'. split; [done|].
  split; [unfold stored_state, t1; cbn [rows]; by rewrite lookup_insert_eq|].
  split; [intros j Hj; unfold stored_state, t1; cbn [rows]; by rewrite lookup_insert_ne|].
  split; [done|]. split; [done|]. split; [done|].
  split; [by rewrite <- Hlast|].
  intros Ht Hus.
  assert (Ht1 : all_fractions t1 = true).
  { apply all_fractions_spec. intros j x. unfold t1. cbn [rows].
    rewrite all_fractions_spec in Ht.
    destruct (decide (k = j)) as [->|Hne].
    - rewrite lookup_insert_eq. intros [= <-]. cbn [progress]. by eapply Ht.
    - rewrite lookup_insert_ne by done. apply Ht. }
  destruct (Hfr Hus) as (Hself' & Ht2 & Hall);
    [exact (proj1 (all_fractions_spec t) Ht k r Hk)|done|].
  constructor; [done|]. apply Forall_app. split; [done|].
  apply Forall_singleton, all_fractions_spec. intros j x.
  destruct (decide (j = k)) as [->|Hne].
  - rewrite Hrow. intros [= <-]. by rewrite Hpr.
  - rewrite Hoth by done. by apply all_fractions_spec.
Qed.

Lemma last_snoc_default {A} (x y : A) (l : list A) (d : A) :
  List.last (x :: l ++ [y]) d = y.
Proof. rewrite app_comm_cons. apply last_last. Qed.

(** What one call does to the stored state of task [k]: an allowed walk
    from a state other than pending to a state other than pending. *)
Lemma call_tables_states k (c : call) (t : table row) s :
  stored_state k t = Some s → s ≠ TASK_PENDING →
  ∃ s', s' ≠ TASK_PENDING ∧
    follows round_after_round s (stored_state k <$> call_tables c t) = true ∧
    stored_state k (List.last (call_tables c t) t) = Some s'.
Proof.
  intros Hs Hnp. destruct c as [k' n1 n2 b|self p now].
  - destruct (rows t !! k') as [r|] eqn:Hk'.
    2:{ unfold call_tables. rewrite execute_enter_missing by done.
        exists s. simpl. by rewrite Hs, round_after_round_refl. }
    destruct (call_tables_execute k' n1 n2 b t r Hk')
      as (t1 & snaps & t3 & w & r' & -> & H1 & H1' & Hsnaps & Hrow & Hfin & Hoth & _).
    rewrite last_snoc_default, fmap_cons, fmap_app.
    destruct (decide (k = k')) as [->|Hne].
    + (* the call runs task [k] *)
      assert (H3 : stored_state k' t3 = Some (final_state w)).
      { unfold stored_state. by rewrite Hrow, <- Hfin. }
      exists (final_state w). split; [by destruct w|]. split; [|done].
      rewrite H1. cbn [follows].
      replace (round_after_round s TASK_RUNNING) with true by (by destruct s).
      destruct (follows_stutter TASK_RUNNING (stored_state k' <$> snaps)) as [Hf Hl].
      { apply Forall_fmap. eapply Forall_impl; [apply (Hsnaps k')|].
        intros x Hx. simpl in *. by rewrite Hx. }
      eapply follows_app; [exact Hf | exact Hl |].
      simpl. rewrite H3. by destruct w.
    + (* the call runs another task *)
      clear H1.
      assert (H1 : stored_state k t1 = Some s) by (by rewrite H1').
      assert (H2 : stored_state k (List.last snaps t1) = Some s).
      { destruct snaps as [|x snaps _] using rev_ind; [done|].
        rewrite last_last. specialize (Hsnaps k).
        apply Forall_app in Hsnaps as [_ Hx].
        inversion Hx as [|? ? Hx' _]; subst. by rewrite Hx'. }
      assert (H3 : stored_state k t3 = Some s).
      { unfold stored_state in *. by rewrite Hoth. }
      exists s. split; [done|]. split; [|done].
      rewrite H1. cbn [follows]. rewrite round_after_round_refl. simpl.
      destruct (follows_stutter s (stored_state k <$> snaps)) as [Hf Hl].
      { apply Forall_fmap. eapply Forall_impl; [apply (Hsnaps k)|].
        intros x Hx. simpl in *. by rewrite Hx, H1. }
      eapply follows_app; [exact Hf | exact Hl |].
      simpl. by rewrite H3, round_after_round_refl.
  - exists s. simpl. rewrite save_progress_stored_state, Hs, round_after_round_refl.
    done.
Qed.

Lemma run_calls_states k cs : ∀ (t : table row) s,
  stored_state k t = Some s → s ≠ TASK_PENDING →
  follows round_after_round s (stored_state k <$> run_calls cs t) = true.
Proof.
  induction cs as [|c cs IH]; intros t s Hs Hnp; simpl; [done|].
  destruct (call_tables_states k c t s Hs Hnp) as (s' & Hnp' & Hf & Hl).
  rewrite fmap_app. eapply follows_app; [exact Hf| |by apply IH].
  rewrite <- Hl, <- Hs. apply last_fmap.
Qed.

Lemma save_progress_fractions p now (self : obj row) (t : table row) :
  is_fraction p = true → all_fractions t = true →
  all_fractions (save_progress p now self t).2 = true.
Proof.
  intros Hp Ht. rewrite save_progress_eq. simpl.
  destruct (pk self) as [k|]; [|done].
  destruct (rows t !! k) as [old|] eqn:Hk; [|done]. simpl.
  apply all_fractions_spec. intros j r. simpl.
  destruct (decide (k = j)) as [->|Hne].
  - rewrite lookup_insert_eq. by intros [= <-].
  - rewrite lookup_insert_ne by done. by apply all_fractions_spec.
Qed.

Lemma forallb_fractions (us : list (float * Z)) :
  forallb is_fraction us.*1 = true → Forall (λ u, is_fraction u.1 = true) us.
Proof.
  induction us as [|[p n] us IH]; simpl; [constructor|].
  intros [Hp Hus]%andb_true_iff. constructor; [done|by apply IH].
Qed.

Lemma call_tables_fractions (c : call) (t : table row) :
  all_fractions t = true →
  forallb is_fraction (call_progress c) = true →
  Forall (λ x, all_fractions x = true) (call_tables c t).
Proof.
  intros Ht Hc. destruct c as [k n1 n2 b|self p now].
  - destruct (rows t !! k) as [r|] eqn:Hk.
    + destruct (call_tables_execute k n1 n2 b t r Hk)
        as (t1 & snaps & t3 & w & r' & -> & _ & _ & _ & _ & _ & _ & Hfr).
      apply Hfr; [done|]. by apply forallb_fractions.
    + unfold call_tables. rewrite execute_enter_missing by done.
      by repeat constructor.
  - simpl in *. apply andb_true_iff in Hc as [Hp _].
    constructor; [by apply save_progress_fractions|constructor].
Qed.

Lemma Forall_last {A} (P : A → Prop) (l : list A) (d : A) :
  Forall P l → P d → P (List.last l d).
Proof.
  intros Hl. revert d. induction Hl as [|x l Hx Hl IH]; intros d Hd; [done|].
  rewrite last_cons_default. by apply IH.
Qed.

Lemma run_calls_fractions cs : ∀ t : table row,
  all_fractions t = true →
  forallb (λ c, forallb is_fraction (call_progress c)) cs = true →
  Forall (λ x, all_fractions x = true) (run_calls cs t).
Proof.
  induction cs as [|c cs IH]; intros t Ht Hcs; simpl; [constructor|].
  simpl in Hcs. apply andb_true_iff in Hcs as [Hc Hcs].
  pose proof (call_tables_fractions c t Ht Hc) as Hts.
  apply Forall_app. split; [done|].
  apply IH; [|done]. by apply Forall_last.
Qed.
End TaskRuns.

(** C3, as the code has it: a task stored as created and touched only by
    [with execute(...)] blocks around progress-reporting work and by
    [save_progress] goes created → running → failed | successful round after
    round.  Each state it is stored with is the one before, or running, or
    failed or successful straight after running: running is never skipped
    and successful never reached from another state than running, the task
    is never stored as pending and never again as created.  Failed and
    successful are not final: a later [execute] stores the task as running
    again. *)
Theorem task_states_go_round_after_round k
    (cs : list ContentLibraryBlockImportTask.call)
    (t : table ContentLibraryBlockImportTask.row) :
  ContentLibraryBlockImportTask.stored_state k t =
    Some ContentLibraryBlockImportTask.TASK_CREATED →
  ContentLibraryBlockImportTask.obeys ContentLibraryBlockImportTask.round_after_round
    (ContentLibraryBlockImportTask.state_trace k cs t) = true.
Proof.
  intros Hk. unfold ContentLibraryBlockImportTask.state_trace.
  rewrite fmap_cons, Hk. cbn [ContentLibraryBlockImportTask.obeys].
  by apply run_calls_states.
Qed.

Lemma task_states_go_round_after_round_witness :
  ContentLibraryBlockImportTask.obeys ContentLibraryBlockImportTask.round_after_round
    (ContentLibraryBlockImportTask.state_trace 1
       [ContentLibraryBlockImportTask.CallExecute 1 10 20
          (ContentLibraryBlockImportTask.ProgressWork [(0.5%float, 12)] None);
        ContentLibraryBlockImportTask.CallSaveProgress
          (Obj (Some 1) (ContentLibraryBlockImportTask.new_row 1 "course-v1:a+b+c"))
          0.75%float 25;
        ContentLibraryBlockImportTask.CallExecute 1 30 40
          (ContentLibraryBlockImportTask.ProgressWork [] (Some (Raised 3)))]
       (objects_create 5 (ContentLibraryBlockImportTask.new_row 1 "course-v1:a+b+c")
          empty_table).2) = true.
Proof. apply task_states_go_round_after_round. reflexivity. Defined.

(** C3, as stated, fails: after a first [execute] has stored the task as
    successful, a second one stores it as running and then as failed, which
    is no walk along created → running → failed | successful. *)
Lemma task_runs_again_after_finishing :
  let t := (objects_create 5 (ContentLibraryBlockImportTask.new_row 1 "course-v1:a+b+c")
              empty_table).2 in
  let cs := [ContentLibraryBlockImportTask.CallExecute 1 10 20
               (ContentLibraryBlockImportTask.ProgressWork [] None);
             ContentLibraryBlockImportTask.CallExecute 1 30 40
               (ContentLibraryBlockImportTask.ProgressWork [] (Some (Raised 3)))] in
  ContentLibraryBlockImportTask.state_trace 1 cs t =
    [Some ContentLibraryBlockImportTask.TASK_CREATED;
     Some ContentLibraryBlockImportTask.TASK_RUNNING;
     Some ContentLibraryBlockImportTask.TASK_SUCCESSFUL;
     Some ContentLibraryBlockImportTask.TASK_RUNNING;
     Some ContentLibraryBlockImportTask.TASK_FAILED] ∧
  ContentLibraryBlockImportTask.obeys ContentLibraryBlockImportTask.once_through
    (ContentLibraryBlockImportTask.state_trace 1 cs t) = false.
Proof. split; vm_compute; reflexivity. Qed.

(** C4, as the code has it: [save_progress] stores the progress it is given,
    unchecked.  As long as every progress passed is a fraction in [0.0, 1.0],
    every stored progress stays one, through any sequence of
    [with execute(...)] blocks and [save_progress] calls. *)
Theorem progress_stays_a_fraction_when_given_fractions
    (cs : list ContentLibraryBlockImportTask.call)
    (t : table ContentLibraryBlockImportTask.row) :
  ContentLibraryBlockImportTask.all_fractions t = true →
  forallb (λ c, forallb ContentLibraryBlockImportTask.is_fraction
                  (ContentLibraryBlockImportTask.call_progress c)) cs = true →
  forallb ContentLibraryBlockImportTask.all_fractions
    (ContentLibraryBlockImportTask.run_calls cs t) = true.
Proof.
  intros Ht Hcs. apply forallb_forall. intros x Hx.
  pose proof (run_calls_fractions cs t Ht Hcs) as Hall.
  rewrite List.Forall_forall in Hall. by apply Hall.
Qed.

Lemma progress_stays_a_fraction_when_given_fractions_witness :
  forallb ContentLibraryBlockImportTask.all_fractions
    (ContentLibraryBlockImportTask.run_calls
       [ContentLibraryBlockImportTask.CallExecute 1 10 20
          (ContentLibraryBlockImportTask.ProgressWork [(0.5%float, 12); (1%float, 15)] None);
        ContentLibraryBlockImportTask.CallSaveProgress
          (Obj (Some 1) (ContentLibraryBlockImportTask.new_row 1 "course-v1:a+b+c"))
          0.75%float 25]
       (objects_create 5 (ContentLibraryBlockImportTask.new_row 1 "course-v1:a+b+c")
          empty_table).2) = true.
Proof.
  apply progress_stays_a_fraction_when_given_fractions; vm_compute; reflexivity.
Defined.

(** C4, as stated, fails: [save_progress(2.5)] on a new task stores 2.5,
    which is no fraction in [0.0, 1.0]. *)
Lemma progress_beyond_one_is_stored :
  let t := (objects_create 5 (ContentLibraryBlockImportTask.new_row 1 "course-v1:a+b+c")
              empty_table).2 in
  let self := Obj (Some 1) (ContentLibraryBlockImportTask.new_row 1 "course-v1:a+b+c") in
  ContentLibraryBlockImportTask.stored_progress 1 t = Some 0%float ∧
  ContentLibraryBlockImportTask.stored_progress 1
    (ContentLibraryBlockImportTask.save_progress 2.5%float 8 self t).2 = Some 2.5%float ∧
  ContentLibraryBlockImportTask.is_fraction 2.5%float = false ∧
  ContentLibraryBlockImportTask.all_fractions t = true ∧
  forallb ContentLibraryBlockImportTask.all_fractions
    (ContentLibraryBlockImportTask.run_calls
       [ContentLibraryBlockImportTask.CallSaveProgress self 2.5%float 8] t) = false.
Proof. repeat split; vm_compute; reflexivity. Qed.

(** ** Unique indexes of libraries and grants *)

Section UniqueFacts.

Lemma library_conflict_sym (a b : ContentLibrary.row) : conflict a b = conflict b a.
Proof.
  simpl. unfold ContentLibrary.same_org_slug, ContentLibrary.same_bundle_uuid.
  rewrite (Z.eqb_sym (ContentLibrary.org a)), (N.eqb_sym (ContentLibrary.bundle_uuid a)).
  by rewrite (bool_decide_ext (ContentLibrary.slug a = ContentLibrary.slug b)
                              (ContentLibrary.slug b = ContentLibrary.slug a)).
Qed.

Lemma library_writes_consistent (ws : list (write ContentLibrary.row)) :
  consistent (apply_writes ContentLibrary.save ws empty_table).
Proof.
  apply apply_writes_consistent; [|apply empty_table_consistent].
  intros uf now o t Ht. apply Model_save_consistent; [apply library_conflict_sym|done].
Qed.

Lemma permission_writes_consistent (ws : list (write ContentLibraryPermission.row)) :
  consistent (apply_writes ContentLibraryPermission.save ws empty_table).
Proof.
  apply apply_writes_consistent; [|apply empty_table_consistent].
  intros uf now o t Ht. by apply permission_save_consistent.
Qed.

End UniqueFacts.

(** C8: in a library table built from nothing by saves and deletions, any
    two rows differ in their (org, slug) pair and in their bundle_uuid. *)
Theorem library_org_slug_and_bundle_uuid_unique
    (ws : list (write ContentLibrary.row)) k1 k2 (r1 r2 : ContentLibrary.row) :
  rows (apply_writes ContentLibrary.save ws empty_table) !! k1 = Some r1 →
  rows (apply_writes ContentLibrary.save ws empty_table) !! k2 = Some r2 →
  k1 ≠ k2 →
  (ContentLibrary.org r1, ContentLibrary.slug r1) ≠
    (ContentLibrary.org r2, ContentLibrary.slug r2) ∧
  ContentLibrary.bundle_uuid r1 ≠ ContentLibrary.bundle_uuid r2.
Proof.
  intros H1 H2 Hne.
  pose proof (library_writes_consistent ws k1 k2 r1 r2 H1 H2 Hne) as Hc.
  simpl in Hc. apply orb_false_iff in Hc as [Hos Hb]. split.
  - intros [= Ho Hs]. unfold ContentLibrary.same_org_slug in Hos.
    rewrite Ho, Hs, Z.eqb_refl, bool_decide_eq_true_2 in Hos; done.
  - intros Hu. unfold ContentLibrary.same_bundle_uuid in Hb.
    rewrite Hu, N.eqb_refl in Hb. done.
Qed.

Lemma library_org_slug_and_bundle_uuid_unique_witness :
  (3, "algebra"%string) ≠ (3, "biology"%string) ∧ (17 ≠ 18)%N.
Proof.
  apply (library_org_slug_and_bundle_uuid_unique
           [Save None 0 (Obj None (ContentLibrary.Row 3 "algebra" 17 "complex" "" false false));
            Save None 1 (Obj None (ContentLibrary.Row 3 "algebra" 99 "complex" "" false false));
            Save None 2 (Obj None (ContentLibrary.Row 4 "biology" 17 "complex" "" false false));
            Save None 3 (Obj None (ContentLibrary.Row 3 "biology" 18 "complex" "" true false))]
           1 2
           (ContentLibrary.Row 3 "algebra" 17 "complex" "" false false)
           (ContentLibrary.Row 3 "biology" 18 "complex" "" true false));
    [reflexivity | reflexivity | lia].
Defined.

(** C9: in a grant table built from nothing by saves and deletions, a user
    has at most one grant for a library and a group has at most one: two
    rows of one library never name the same user, nor the same group. *)
Theorem permission_one_grant_per_user_and_per_group
    (ws : list (write ContentLibraryPermission.row)) k1 k2
    (r1 r2 : ContentLibraryPermission.row) :
  rows (apply_writes ContentLibraryPermission.save ws empty_table) !! k1 = Some r1 →
  rows (apply_writes ContentLibraryPermission.save ws empty_table) !! k2 = Some r2 →
  k1 ≠ k2 →
  ContentLibraryPermission.library r1 = ContentLibraryPermission.library r2 →
  (∀ u, ContentLibraryPermission.user r1 = Some u →
        ContentLibraryPermission.user r2 ≠ Some u) ∧
  (∀ g, ContentLibraryPermission.group r1 = Some g →
        ContentLibraryPermission.group r2 ≠ Some g).
Proof.
  intros H1 H2 Hne Hlib.
  pose proof (permission_writes_consistent ws k1 k2 r1 r2 H1 H2 Hne) as Hc.
  simpl in Hc. apply orb_false_iff in Hc as [Hu Hg].
  unfold ContentLibraryPermission.same_library_user,
         ContentLibraryPermission.same_library_group in *.
  rewrite Hlib, Z.eqb_refl in Hu, Hg. simpl in Hu, Hg. split.
  - intros u Hu1 Hu2. rewrite Hu1, Hu2 in Hu. simpl in Hu.
    by rewrite Z.eqb_refl in Hu.
  - intros g Hg1 Hg2. rewrite Hg1, Hg2 in Hg. simpl in Hg.
    by rewrite Z.eqb_refl in Hg.
Qed.

Lemma permission_one_grant_per_user_and_per_group_witness :
  let ws := [Save None 0 (Obj None (ContentLibraryPermission.Row 1 (Some 7) None "read"));
             Save None 1 (Obj None (ContentLibraryPermission.Row 1 (Some 7) None "admin"));
             Save None 2 (Obj None (ContentLibraryPermission.Row 1 (Some 8) None "admin"))] in
  rows (apply_writes ContentLibraryPermission.save ws empty_table) !! 3 = None ∧
  (∀ u, Some 7 = Some u → Some 8 ≠ Some u) ∧
  (∀ g, @None Z = Some g → @None Z ≠ Some g).
Proof.
  intros ws. split; [reflexivity|].
  apply (permission_one_grant_per_user_and_per_group ws 1 2
           (ContentLibraryPermission.Row 1 (Some 7) None "read")
           (ContentLibraryPermission.Row 1 (Some 8) None "admin"));
    [reflexivity | reflexivity | lia | reflexivity].
Defined.

(** The second grant of a library to the same user is refused by the index,
    while grants to groups share the empty user. *)
Example permission_duplicate_grant_refused :
  let t := (ContentLibraryPermission.save None 0
              (Obj None (ContentLibraryPermission.Row 1 (Some 7) None "read")) empty_table).2 in
  (ContentLibraryPermission.save None 1
     (Obj None (ContentLibraryPermission.Row 1 (Some 7) None "admin")) t).1.1 =
    Raise IntegrityError ∧
  map_to_list (rows (apply_writes ContentLibraryPermission.save
     [Save None 0 (Obj None (ContentLibraryPermission.Row 1 None (Some 5) "read"));
      Save None 1 (Obj None (ContentLibraryPermission.Row 1 None (Some 6) "read"))]
     empty_table)) =
    [(2, ContentLibraryPermission.Row 1 None (Some 6) "read");
     (1, ContentLibraryPermission.Row 1 None (Some 5) "read")].
Proof. split; vm_compute; reflexivity. Qed.

(** ** The unsubscribe token after migration 0007 *)

Section TokenFacts.
Import CourseGoalsMigration.

Lemma migrate_coursegoal schema :
  migrate schema !! coursegoal =
    (λ _, {| blank := true; db_index := false; default := uuid_uuid4;
             editable := false;
             help_text := "Used to validate unsubscribe requests without requiring a login";
             null := true; unique := true |}) <$> schema !! coursegoal.
Proof.
  unfold migrate, operations, state_forwards. simpl.
  rewrite lookup_alter_ne by done. by rewrite lookup_alter_eq.
Qed.

Lemma migrate_historicalcoursegoal schema :
  migrate schema !! historicalcoursegoal =
    (λ _, {| blank := true; db_index := true; default := uuid_uuid4;
             editable := false;
             help_text := "Used to validate unsubscribe requests without requiring a login";
             null := true; unique := false |}) <$> schema !! historicalcoursegoal.
Proof.
  unfold migrate, operations, state_forwards. simpl.
  rewrite lookup_alter_eq. by rewrite lookup_alter_ne.
Qed.

Lemma same_token_sym (a b : option N) : same_token a b = same_token b a.
Proof. destruct a, b; simpl; try done. apply N.eqb_sym. Qed.

Lemma goal_writes_consistent (f : UUIDField) (ws : list (write (option N))) :
  @consistent _ (goal_model f) (apply_writes (save f) ws empty_table).
Proof.
  apply apply_writes_consistent; [|apply empty_table_consistent].
  intros uf now o t Ht. apply Model_save_consistent; [|done].
  intros a b. simpl. by rewrite same_token_sym.
Qed.

Lemma unique_tokens_never_twice (f : UUIDField) (ws : list (write (option N))) :
  unique f = true →
  ¬ token_twice (apply_writes (save f) ws empty_table).
Proof.
  intros Hu (k1 & k2 & u & Hne & H1 & H2).
  pose proof (goal_writes_consistent f ws k1 k2 _ _ H1 H2 Hne) as Hc.
  simpl in Hc. by rewrite Hu, N.eqb_refl in Hc.
Qed.
End TokenFacts.

(** C7, as the code has it: after the migration, on a schema that has the
    two fields, [unsubscribe_token] of both [coursegoal] and
    [historicalcoursegoal] is nullable, may be left blank, is filled with a
    fresh [uuid.uuid4] draw when an object is made without a value, and is
    closed to the editable interface (a form keeps the current value).  On
    [coursegoal] the column is unique, so no two stored course goals share
    a token, while any number may have none; on [historicalcoursegoal] it
    is only indexed, not unique. *)
Theorem unsubscribe_token_after_migration
    (schema : gmap (string * string) CourseGoalsMigration.UUIDField) :
  is_Some (schema !! CourseGoalsMigration.coursegoal) →
  is_Some (schema !! CourseGoalsMigration.historicalcoursegoal) →
  ∃ goal hist,
    CourseGoalsMigration.migrate schema !! CourseGoalsMigration.coursegoal = Some goal ∧
    CourseGoalsMigration.migrate schema !! CourseGoalsMigration.historicalcoursegoal
      = Some hist ∧
    (CourseGoalsMigration.null goal = true ∧ CourseGoalsMigration.null hist = true) ∧
    (CourseGoalsMigration.blank goal = true ∧ CourseGoalsMigration.blank hist = true) ∧
    (∀ drawn,
       CourseGoalsMigration.initial_token goal None drawn = Some drawn ∧
       CourseGoalsMigration.initial_token hist None drawn = Some drawn) ∧
    (∀ posted current,
       CourseGoalsMigration.form_token goal posted current = current ∧
       CourseGoalsMigration.form_token hist posted current = current) ∧
    (CourseGoalsMigration.unique goal = true ∧
     ∀ ws, ¬ CourseGoalsMigration.token_twice
               (apply_writes (CourseGoalsMigration.save goal) ws empty_table)) ∧
    (CourseGoalsMigration.unique hist = false ∧
     CourseGoalsMigration.db_index hist = true).
Proof.
  intros [g Hg] [h Hh].
  eexists _, _. split; [by rewrite migrate_coursegoal, Hg|].
  split; [by rewrite migrate_historicalcoursegoal, Hh|].
  repeat split. intros ws. by apply unique_tokens_never_twice.
Qed.

Lemma unsubscribe_token_after_migration_witness :
  let before := {| CourseGoalsMigration.blank := true;
                   CourseGoalsMigration.db_index := false;
                   CourseGoalsMigration.default := CourseGoalsMigration.NOT_PROVIDED;
                   CourseGoalsMigration.editable := true;
                   CourseGoalsMigration.help_text := "";
                   CourseGoalsMigration.null := true;
                   CourseGoalsMigration.unique := false |} in
  let schema : gmap (string * string) CourseGoalsMigration.UUIDField :=
    <[CourseGoalsMigration.coursegoal := before]>
      (<[CourseGoalsMigration.historicalcoursegoal := before]> ∅) in
  ∃ goal hist,
    CourseGoalsMigration.migrate schema !! CourseGoalsMigration.coursegoal = Some goal ∧
    CourseGoalsMigration.migrate schema !! CourseGoalsMigration.historicalcoursegoal
      = Some hist ∧
    CourseGoalsMigration.unique goal = true ∧
    CourseGoalsMigration.unique hist = false.
Proof.
  intros before schema.
  destruct (unsubscribe_token_after_migration schema)
    as (goal & hist & Hg & Hh & _ & _ & _ & _ & [Hu _] & [Hn _]).
  - vm_compute. eauto.
  - vm_compute. eauto.
  - by exists goal, hist.
Defined.

(** C7, as stated, fails for [HistoricalCourseGoal]: with the field the
    migration gives the history table, two rows with one and the same token
    are both stored. *)
Lemma historical_tokens_are_not_unique :
  let before := {| CourseGoalsMigration.blank := true;
                   CourseGoalsMigration.db_index := false;
                   CourseGoalsMigration.default := CourseGoalsMigration.NOT_PROVIDED;
                   CourseGoalsMigration.editable := true;
                   CourseGoalsMigration.help_text := "";
                   CourseGoalsMigration.null := true;
                   CourseGoalsMigration.unique := false |} in
  let schema : gmap (string * string) CourseGoalsMigration.UUIDField :=
    <[CourseGoalsMigration.coursegoal := before]>
      (<[CourseGoalsMigration.historicalcoursegoal := before]> ∅) in
  ∃ hist,
    CourseGoalsMigration.migrate schema !! CourseGoalsMigration.historicalcoursegoal
      = Some hist ∧
    CourseGoalsMigration.token_twice
      (apply_writes (CourseGoalsMigration.save hist)
         [Save None 0 (Obj None (Some 42%N)); Save None 1 (Obj None (Some 42%N))]
         empty_table).
Proof.
  intros before schema. eexists. split; [vm_compute; reflexivity|].
  exists 1, 2, 42%N. split; [lia|]. split; vm_compute; reflexivity.
Qed.

(** * Further properties of the models *)

(** ** Import tasks: errors, the final save, progress inside [execute] *)

Section TaskMore.
Import ContentLibraryBlockImportTask.

Local Arguments run_pre_save : simpl never.
Local Arguments write_columns : simpl never.
Local Arguments violates : simpl never.

(** The final save of [execute], as an equation. *)
Lemma execute_exit_eq now (w : result unit) (self : obj row) (t : table row) k :
  pk self = Some k →
  let a := attrs self in
  let written :=
    Row (library a) (final_state w) (progress a) (course_id a)
        (match rows t !! k with Some _ => created_at a | None => Some now end)
        (Some now) in
  execute_exit now w self t =
    (w, Obj (Some k) written,
     Table (<[k := written]> (rows t))
           (match rows t !! k with
            | Some _ => next_pk t
            | None => Z.max (next_pk t) (k + 1)
            end)).
Proof.
  intros Hpk. unfold execute_exit, Model_save, Model_save_table, with_attrs.
  destruct w as [[]|e]; simpl; rewrite Hpk; simpl;
    destruct (rows t !! k) as [old|];
    rewrite ?task_never_violates, ?task_write_all, ?task_pre_save_all;
    rewrite ?task_never_violates; reflexivity.
Qed.

(** Progress updates on the object of a stored task all succeed; the object
    and the row end with the last progress and instant given. *)
Lemma run_updates_on_row us : ∀ (self : obj row) (t : table row) k (r : row),
  pk self = Some k → rows t !! k = Some r →
  (run_updates us self t).2 =
    (Ok tt,
     Obj (Some k)
       (Row (library (attrs self)) (state (attrs self))
            (List.last us.*1 (progress (attrs self))) (course_id (attrs self))
            (created_at (attrs self))
            (List.last (Some <$> us.*2) (updated_at (attrs self)))),
     Table (<[k := Row (library r) (state r) (List.last us.*1 (progress r))
                       (course_id r) (created_at r)
                       (List.last (Some <$> us.*2) (updated_at r))]> (rows t))
           (next_pk t)).
Proof.
  induction us as [|[p now] us IH]; intros self t k r Hpk Hk.
  - destruct self as [pk0 a], a, t as [m n], r. simpl in *. subst pk0.
    by rewrite insert_id.
  - cbn [run_updates]. rewrite save_progress_eq. cbv zeta. rewrite Hpk, Hk.
    set (self1 := Obj (Some k) _). set (r1 := Row _ _ p _ _ _).
    set (t1 := Table _ _).
    assert (Hk1 : rows t1 !! k = Some r1)
      by (unfold t1; cbn [rows]; by rewrite lookup_insert_eq).
    specialize (IH self1 t1 k r1 eq_refl Hk1).
    destruct (run_updates us self1 t1) as [snaps out]. cbn [snd fst] in IH |- *.
    rewrite IH. rewrite !fmap_cons. cbn [fst snd]. rewrite !last_cons_default.
    unfold t1, r1, self1. cbn [rows next_pk attrs library state progress course_id
                                 created_at updated_at].
    by rewrite insert_insert_eq.
Qed.
(** [execute] around progress-reporting work on a stored task, as one
    equation. *)
Lemma execute_progress_work_eq k n1 n2 (b : progress_work) (t : table row) (r : row) :
  rows t !! k = Some r →
  execute k n1 n2 (run_work b) t =
    (match raises b with Some e => Raise e | None => Ok tt end,
     Table (<[k := Row (library r)
                       (match raises b with
                        | Some _ => TASK_FAILED
                        | None => TASK_SUCCESSFUL
                        end)
                       (List.last (updates b).*1 (progress r)) (course_id r)
                       (created_at r) (Some n2)]> (rows t))
           (next_pk t)).
Proof.
  intros Hk. unfold execute.
  pose proof (execute_enter_eq k n1 t r Hk) as Henter. cbv zeta in Henter.
  rewrite Henter. set (self := Obj (Some k) _). set (t1 := Table _ _).
  assert (Hk1 : rows t1 !! k = Some (attrs self))
    by (unfold t1; cbn [rows]; by rewrite lookup_insert_eq).
  unfold run_work.
  rewrite (run_updates_on_row (updates b) self t1 k (attrs self) eq_refl Hk1).
  set (self' := Obj (Some k) _). set (t2 := Table _ _).
  assert (Hk2 : is_Some (rows t2 !! k))
    by (unfold t2; cbn [rows]; rewrite lookup_insert_eq; eauto).
  destruct Hk2 as [r2 Hk2].
  destruct (raises b) as [e|].
  - rewrite (execute_exit_eq n2 (Raise e) self' t2 k eq_refl). cbv zeta. rewrite Hk2.
    unfold t2, t1, self', self. cbn. by rewrite !insert_insert_eq.
  - rewrite (execute_exit_eq n2 (Ok tt) self' t2 k eq_refl). cbv zeta. rewrite Hk2.
    unfold t2, t1, self', self. cbn. by rewrite !insert_insert_eq.
Qed.
End TaskMore.

(** X1: [execute] on an identifier no task has raises [DoesNotExist] from
    [objects.get]; the work is never started and the table is as it was. *)
Theorem execute_on_missing_task_raises k n1 n2 (t : table ContentLibraryBlockImportTask.row) :
  rows t !! k = None →
  ∀ body : ContentLibraryBlockImportTask.work,
    ContentLibraryBlockImportTask.execute k n1 n2 body t = (Raise DoesNotExist, t).
Proof. intros Hk body. by apply execute_missing_task. Qed.

Lemma execute_on_missing_task_raises_witness :
  ContentLibraryBlockImportTask.execute 7 1 2
    (λ self t, (Ok tt, self, Model_delete 1 t))
    (objects_create 5 (ContentLibraryBlockImportTask.new_row 1 "course-v1:a+b+c")
       empty_table).2 =
  (Raise DoesNotExist,
   (objects_create 5 (ContentLibraryBlockImportTask.new_row 1 "course-v1:a+b+c")
      empty_table).2).
Proof. apply execute_on_missing_task_raises. reflexivity. Defined.

(** X2: progress reported inside [execute] is kept by its final save.  On a
    stored task, a [with execute(...)] block whose work reports progress and
    then completes or raises leaves exactly one changed row: the task, with
    the final state, the last progress reported (its earlier progress when
    none was), the instant of the exit, and library, course and creation
    instant as before; [execute] completes, or raises the error of the
    work. *)
Theorem execute_keeps_reported_progress k n1 n2
    (b : ContentLibraryBlockImportTask.progress_work)
    (t : table ContentLibraryBlockImportTask.row) (r : ContentLibraryBlockImportTask.row) :
  rows t !! k = Some r →
  ContentLibraryBlockImportTask.execute k n1 n2
      (ContentLibraryBlockImportTask.run_work b) t =
    (match ContentLibraryBlockImportTask.raises b with
     | Some e => Raise e
     | None => Ok tt
     end,
     Table (<[k := ContentLibraryBlockImportTask.Row
                      (ContentLibraryBlockImportTask.library r)
                      (match ContentLibraryBlockImportTask.raises b with
                       | Some _ => ContentLibraryBlockImportTask.TASK_FAILED
                       | None => ContentLibraryBlockImportTask.TASK_SUCCESSFUL
                       end)
                      (List.last (ContentLibraryBlockImportTask.updates b).*1
                                 (ContentLibraryBlockImportTask.progress r))
                      (ContentLibraryBlockImportTask.course_id r)
                      (ContentLibraryBlockImportTask.created_at r) (Some n2)]> (rows t))
           (next_pk t)).
Proof. apply execute_progress_work_eq. Qed.

Lemma execute_keeps_reported_progress_witness :
  ContentLibraryBlockImportTask.stored_progress 1
    (ContentLibraryBlockImportTask.execute 1 10 20
       (ContentLibraryBlockImportTask.run_work
          (ContentLibraryBlockImportTask.ProgressWork
             [(0.25%float, 12); (0.5%float, 14)] None))
       (objects_create 5 (ContentLibraryBlockImportTask.new_row 1 "course-v1:a+b+c")
          empty_table).2).2 = Some 0.5%float.
Proof.
  assert (Hrow : rows (objects_create 5
                         (ContentLibraryBlockImportTask.new_row 1 "course-v1:a+b+c")
                         empty_table).2 !! 1 =
                 Some (ContentLibraryBlockImportTask.Row 1
                         ContentLibraryBlockImportTask.TASK_CREATED 0%float
                         "course-v1:a+b+c" (Some 5) (Some 5))) by reflexivity.
  rewrite (execute_keeps_reported_progress 1 10 20
             (ContentLibraryBlockImportTask.ProgressWork
                [(0.25%float, 12); (0.5%float, 14)] None) _ _ Hrow).
  reflexivity.
Defined.

(** X3: a [with execute(...)] block around progress-reporting work touches
    the row of its own task only: every other row and the key sequence are
    as before, whether the task exists or not, and no row is created. *)
Theorem execute_leaves_other_tasks_alone k n1 n2
    (b : ContentLibraryBlockImportTask.progress_work)
    (t : table ContentLibraryBlockImportTask.row) j :
  j ≠ k →
  rows (ContentLibraryBlockImportTask.execute k n1 n2
          (ContentLibraryBlockImportTask.run_work b) t).2 !! j = rows t !! j ∧
  next_pk (ContentLibraryBlockImportTask.execute k n1 n2
             (ContentLibraryBlockImportTask.run_work b) t).2 = next_pk t ∧
  (rows t !! k = None →
   rows (ContentLibraryBlockImportTask.execute k n1 n2
           (ContentLibraryBlockImportTask.run_work b) t).2 !! k = None).
Proof.
  intros Hne. destruct (rows t !! k) as [r|] eqn:Hk.
  - rewrite (execute_progress_work_eq k n1 n2 b t r Hk). cbn [snd rows next_pk].
    rewrite lookup_insert_ne by done. done.
  - rewrite execute_missing_task by done. done.
Qed.

Lemma execute_leaves_other_tasks_alone_witness :
  let t := (objects_create 6 (ContentLibraryBlockImportTask.new_row 2 "course-v1:d+e+f")
              (objects_create 5 (ContentLibraryBlockImportTask.new_row 1 "course-v1:a+b+c")
                 empty_table).2).2 in
  rows (ContentLibraryBlockImportTask.execute 1 10 20
          (ContentLibraryBlockImportTask.run_work
             (ContentLibraryBlockImportTask.ProgressWork [(0.5%float, 12)] None)) t).2 !! 2
    = rows t !! 2.
Proof.
  intros t.
  refine (proj1 (execute_leaves_other_tasks_alone 1 10 20 _ t 2 _)). lia.
Defined.


(** X5: [save_progress] fails on an object that was never saved, with the
    [ValueError] of a forced update without a key, and on an object whose
    row is gone, with the [DatabaseError] of an update that touched no row.
    Either way the table is as it was, while the object already carries the
    new progress, which was assigned before the save. *)
Theorem save_progress_needs_a_stored_row p now
    (self : obj ContentLibraryBlockImportTask.row)
    (t : table ContentLibraryBlockImportTask.row) :
  (pk self = None ∨ ∃ k, pk self = Some k ∧ rows t !! k = None) →
  let out := ContentLibraryBlockImportTask.save_progress p now self t in
  out.1.1 =
    Raise (match pk self with
           | None => ValueError "Cannot force an update in save() with no primary key."
           | Some _ => DatabaseError "Save with update_fields did not affect any rows."
           end) ∧
  out.2 = t ∧
  ContentLibraryBlockImportTask.progress (attrs out.1.2) = p.
Proof.
  intros Hno out. subst out. rewrite save_progress_eq. cbv zeta.
  destruct Hno as [Hpk|(k & Hpk & Hk)]; rewrite Hpk; [done|]. by rewrite Hk.
Qed.

Lemma save_progress_needs_a_stored_row_witness :
  (ContentLibraryBlockImportTask.save_progress 0.5%float 8
     (Obj None (ContentLibraryBlockImportTask.new_row 1 "course-v1:a+b+c"))
     empty_table).1.1 =
    Raise (ValueError "Cannot force an update in save() with no primary key.") ∧
  (ContentLibraryBlockImportTask.save_progress 0.5%float 8
     (Obj (Some 4) (ContentLibraryBlockImportTask.new_row 1 "course-v1:a+b+c"))
     empty_table).1.1 =
    Raise (DatabaseError "Save with update_fields did not affect any rows.").
Proof.
  split.
  - refine (proj1 (save_progress_needs_a_stored_row 0.5%float 8
                     (Obj None (ContentLibraryBlockImportTask.new_row 1 "course-v1:a+b+c"))
                     empty_table _)).
    left. reflexivity.
  - refine (proj1 (save_progress_needs_a_stored_row 0.5%float 8
                     (Obj (Some 4) (ContentLibraryBlockImportTask.new_row 1 "course-v1:a+b+c"))
                     empty_table _)).
    right. exists 4. split; reflexivity.
Defined.

(** X6: of two progress updates of one task the later one wins: after both,
    the table is what the second alone would have left, through whichever
    objects the two were made. *)
Theorem save_progress_last_update_wins p1 n1 p2 n2
    (o1 o2 : obj ContentLibraryBlockImportTask.row)
    (t : table ContentLibraryBlockImportTask.row) k :
  pk o1 = Some k → pk o2 = Some k →
  (ContentLibraryBlockImportTask.save_progress p2 n2 o2
     (ContentLibraryBlockImportTask.save_progress p1 n1 o1 t).2).2 =
  (ContentLibraryBlockImportTask.save_progress p2 n2 o2 t).2.
Proof.
  intros H1 H2. rewrite !save_progress_eq. cbv zeta. rewrite H1, H2.
  destruct (rows t !! k) as [old|] eqn:Hk; cbn [snd rows next_pk].
  - rewrite lookup_insert_eq. cbn. by rewrite insert_insert_eq.
  - by rewrite Hk.
Qed.

Lemma save_progress_last_update_wins_witness :
  let t := (objects_create 5 (ContentLibraryBlockImportTask.new_row 1 "course-v1:a+b+c")
              empty_table).2 in
  let o := Obj (Some 1) (ContentLibraryBlockImportTask.new_row 1 "course-v1:a+b+c") in
  (ContentLibraryBlockImportTask.save_progress 0.75%float 9 o
     (ContentLibraryBlockImportTask.save_progress 0.5%float 8 o t).2).2 =
  (ContentLibraryBlockImportTask.save_progress 0.75%float 9 o t).2.
Proof.
  intros t o.
  apply (save_progress_last_update_wins 0.5%float 8 0.75%float 9 o o t 1); reflexivity.
Defined.


(** ** Permission grants: what the guard lets through *)

Section PermissionMore.
Import ContentLibraryPermission.

Local Arguments violates : simpl never.

Lemma violates_true {F : Type} `{Model F} (k k' : Z) (r r' : F) (m : gmap Z F) :
  m !! k' = Some r' → k' ≠ k → conflict r r' = true → violates k r m = true.
Proof.
  intros Hk' Hne Hc. unfold violates. apply bool_decide_eq_true.
  apply map_Exists_lookup. by exists k', r'.
Qed.

Lemma permission_pre_save_id names add now (r : row) :
  run_pre_save names add now r = r.
Proof. unfold run_pre_save. induction names as [|f names IH]; simpl; done. Qed.

Lemma permission_write_all (src dst : row) :
  write_columns (field_names (F := row)) src dst = src.
Proof. destruct src; reflexivity. Qed.

(** A full save of a grant, when it writes, writes the object. *)
Lemma permission_full_save_rows now (o : obj row) (t : table row) :
  rows (Model_save None now o t).2 = rows t ∨
  ∃ k, rows (Model_save None now o t).2 = <[k := attrs o]> (rows t).
Proof.
  unfold Model_save, Model_save_table.
  destruct (pk o) as [k|]; cbn [default]; rewrite ?permission_pre_save_id.
  - destruct (rows t !! k) as [old|].
    + rewrite permission_write_all. destruct (violates _ _ _); simpl; eauto.
    + destruct (violates _ _ _); simpl; eauto.
  - destruct (violates _ _ _); simpl; eauto.
Qed.

Lemma permission_full_writes_one_grantee (ws : list (write row)) : ∀ t : table row,
  forallb (λ w, match w with
                | Save None _ _ | Delete _ => true
                | Save (Some _) _ _ => false
                end) ws = true →
  map_Forall (λ _ r, grantees r = 1%nat) (rows t) →
  map_Forall (λ _ r, grantees r = 1%nat) (rows (apply_writes save ws t)).
Proof.
  induction ws as [|w ws IH]; intros t Hws Ht; simpl in *; [done|].
  apply andb_true_iff in Hws as [Hw Hws]. apply IH; [done|].
  destruct w as [[names|] now o|k]; [done| |by apply map_Forall_delete].
  simpl. unfold save, save_over.
  destruct (Bool.eqb _ _) eqn:Hguard; [done|].
  assert (Hone : grantees (attrs o) = 1%nat).
  { destruct (decide (grantees (attrs o) = 1%nat)) as [|Hn]; [done|].
    apply guard_iff_grantees in Hn. congruence. }
  destruct (permission_full_save_rows now o t) as [->|[k ->]]; [done|].
  by apply map_Forall_insert_2.
Qed.
End PermissionMore.

(** X8: in a grant table built from nothing by full saves (no
    [update_fields]) and deletions, every stored grant names exactly one of
    user and group. *)
Theorem permission_rows_name_one_grantee
    (ws : list (write ContentLibraryPermission.row)) k
    (r : ContentLibraryPermission.row) :
  forallb (λ w, match w with
                | Save None _ _ | Delete _ => true
                | Save (Some _) _ _ => false
                end) ws = true →
  rows (apply_writes ContentLibraryPermission.save ws empty_table) !! k = Some r →
  ContentLibraryPermission.grantees r = 1%nat.
Proof.
  intros Hws Hk.
  by apply (permission_full_writes_one_grantee ws empty_table Hws
              (map_Forall_empty _) k r).
Qed.

Lemma permission_rows_name_one_grantee_witness :
  ContentLibraryPermission.grantees
    (ContentLibraryPermission.Row 1 None (Some 4) "read") = 1%nat.
Proof.
  apply (permission_rows_name_one_grantee
           [Save None 0 (Obj None (ContentLibraryPermission.Row 1 (Some 7) (Some 4) "admin"));
            Save None 1 (Obj None (ContentLibraryPermission.Row 1 None (Some 4) "read"));
            Save None 2 (Obj None (ContentLibraryPermission.Row 1 None None "read"))]
           1); reflexivity.
Defined.

(** X9: the guard looks at the object, not at the row that results.  A
    partial save [update_fields=['group']] of an object with a group and no
    user passes it, and on a stored grant to a user it writes the group
    beside the user: the stored row then names both. *)
Theorem permission_partial_save_can_name_both k library u g level level' now
    (t : table ContentLibraryPermission.row) :
  rows t !! k = Some (ContentLibraryPermission.Row library (Some u) None level) →
  violates k (ContentLibraryPermission.Row library (Some u) (Some g) level) (rows t) = false →
  ContentLibraryPermission.save (Some ["group"]%string) now
    (Obj (Some k) (ContentLibraryPermission.Row library None (Some g) level')) t =
  (Ok tt, Obj (Some k) (ContentLibraryPermission.Row library None (Some g) level'),
   Table (<[k := ContentLibraryPermission.Row library (Some u) (Some g) level]> (rows t))
         (next_pk t)).
Proof.
  intros Hk Hv. unfold ContentLibraryPermission.save, ContentLibraryPermission.save_over.
  cbn [attrs ContentLibraryPermission.user ContentLibraryPermission.group truthy negb Bool.eqb].
  unfold Model_save.
  change (known_fields ["group"]%string) with true. cbv iota.
  unfold Model_save_table. cbn [pk attrs default]. rewrite Hk.
  rewrite !permission_pre_save_id.
  change (write_columns _ _ _)
    with (ContentLibraryPermission.Row library (Some u) (Some g) level).
  by rewrite Hv.
Qed.

Lemma permission_partial_save_can_name_both_witness :
  let t := (ContentLibraryPermission.save None 0
              (Obj None (ContentLibraryPermission.Row 1 (Some 7) None "read")) empty_table).2 in
  ContentLibraryPermission.grantees <$>
    rows (ContentLibraryPermission.save (Some ["group"]%string) 5
            (Obj (Some 1) (ContentLibraryPermission.Row 1 None (Some 4) "read")) t).2 !! 1
  = Some 2%nat.
Proof.
  intros t.
  rewrite (permission_partial_save_can_name_both 1 1 7 4 "read" "read" 5 t);
    reflexivity.
Defined.

(** X10: saving a grant a second time changes nothing: the object a full
    [save] has returned is accepted again, at any later instant, and leaves
    the object and the table as the first save left them. *)
Theorem permission_save_again_changes_nothing now now'
    (o o' : obj ContentLibraryPermission.row)
    (t t' : table ContentLibraryPermission.row) :
  ContentLibraryPermission.save None now o t = (Ok tt, o', t') →
  ContentLibraryPermission.save None now' o' t' = (Ok tt, o', t').
Proof.
  unfold ContentLibraryPermission.save, ContentLibraryPermission.save_over.
  destruct (Bool.eqb _ _) eqn:Hguard; [done|].
  unfold Model_save, Model_save_table.
  destruct (pk o) as [k|] eqn:Hpk; cbn [default]; rewrite ?permission_pre_save_id.
  - destruct (rows t !! k) as [old|] eqn:Hk.
    + rewrite permission_write_all.
      destruct (violates k (attrs o) (rows t)) eqn:Hv; [done|].
      intros [= <- <-]. cbn [attrs pk rows next_pk]. rewrite Hguard.
      rewrite ?permission_pre_save_id, lookup_insert_eq, permission_write_all.
      replace (violates k (attrs o) (<[k:=attrs o]> (rows t))) with false.
      * by rewrite insert_insert_eq.
      * symmetry. apply violates_false. intros k' r' Hk' Hne.
        rewrite lookup_insert_ne in Hk' by done.
        by apply (proj1 (violates_false k (attrs o) (rows t)) Hv k' r').
    + destruct (violates k (attrs o) (rows t)) eqn:Hv; [done|].
      intros [= <- <-]. cbn [attrs pk rows next_pk]. rewrite Hguard.
      rewrite ?permission_pre_save_id, lookup_insert_eq, permission_write_all.
      replace (violates k (attrs o) (<[k:=attrs o]> (rows t))) with false.
      * by rewrite insert_insert_eq.
      * symmetry. apply violates_false. intros k' r' Hk' Hne.
        rewrite lookup_insert_ne in Hk' by done.
        by apply (proj1 (violates_false k (attrs o) (rows t)) Hv k' r').
  - destruct (violates (next_pk t) (attrs o) (rows t)) eqn:Hv; [done|].
    intros [= <- <-]. cbn [attrs pk rows next_pk default]. rewrite Hguard.
    rewrite ?permission_pre_save_id, lookup_insert_eq, permission_write_all.
    replace (violates (next_pk t) (attrs o) (<[next_pk t:=attrs o]> (rows t))) with false.
    + by rewrite insert_insert_eq.
    + symmetry. apply violates_false. intros k' r' Hk' Hne.
      rewrite lookup_insert_ne in Hk' by done.
      by apply (proj1 (violates_false (next_pk t) (attrs o) (rows t)) Hv k' r').
Qed.

Lemma permission_save_again_changes_nothing_witness :
  let o' := Obj (Some 1) (ContentLibraryPermission.Row 1 (Some 7) None "read") in
  let t' := Table (<[1 := ContentLibraryPermission.Row 1 (Some 7) None "read"]> ∅) 2 in
  ContentLibraryPermission.save None 9 o' t' = (Ok tt, o', t').
Proof.
  intros o' t'.
  apply (permission_save_again_changes_nothing 0 9
           (Obj None (ContentLibraryPermission.Row 1 (Some 7) None "read")) o'
           empty_table t').
  reflexivity.
Defined.

(** X11: a new grant to a user, or to a group, that a stored grant of the
    same library already names is refused with an [IntegrityError], and the
    table stays as it was. *)
Theorem permission_repeated_grant_is_refused now
    (r r' : ContentLibraryPermission.row) (t : table ContentLibraryPermission.row) k' :
  ContentLibraryPermission.grantees r = 1%nat →
  rows t !! k' = Some r' → k' ≠ next_pk t →
  ContentLibraryPermission.library r' = ContentLibraryPermission.library r →
  (∃ u, ContentLibraryPermission.user r = Some u ∧
        ContentLibraryPermission.user r' = Some u) ∨
  (∃ g, ContentLibraryPermission.group r = Some g ∧
        ContentLibraryPermission.group r' = Some g) →
  ContentLibraryPermission.save None now (Obj None r) t = (Raise IntegrityError, Obj None r, t).
Proof.
  intros Hone Hk' Hne Hlib Hsame.
  unfold ContentLibraryPermission.save. rewrite save_over_delegates by done.
  unfold Model_save, Model_save_table. cbn [pk attrs].
  rewrite permission_pre_save_id.
  rewrite (violates_true (next_pk t) k' r r' (rows t) Hk' Hne); [done|].
  simpl. unfold ContentLibraryPermission.same_library_user,
    ContentLibraryPermission.same_library_group, ContentLibraryPermission.same_key.
  rewrite Hlib, Z.eqb_refl.
  destruct Hsame as [(u & -> & ->)|(g & -> & ->)]; simpl; rewrite Z.eqb_refl;
    [done | apply orb_true_r].
Qed.

Lemma permission_repeated_grant_is_refused_witness :
  let t := Table (<[1 := ContentLibraryPermission.Row 1 (Some 7) None "read"]> ∅) 2 in
  ContentLibraryPermission.save None 9
    (Obj None (ContentLibraryPermission.Row 1 (Some 7) None "admin")) t =
  (Raise IntegrityError, Obj None (ContentLibraryPermission.Row 1 (Some 7) None "admin"), t).
Proof.
  intros t.
  apply (permission_repeated_grant_is_refused 9
           (ContentLibraryPermission.Row 1 (Some 7) None "admin")
           (ContentLibraryPermission.Row 1 (Some 7) None "read") t 1);
    [reflexivity | reflexivity | vm_compute; discriminate | reflexivity
    | left; by exists 7].
Defined.

(** X12: a new library that repeats the organization and slug, or the
    bundle_uuid, of a stored library is refused with an [IntegrityError],
    and the table stays as it was. *)
Theorem library_repeated_key_is_refused now
    (r r' : ContentLibrary.row) (t : table ContentLibrary.row) k' :
  rows t !! k' = Some r' → k' ≠ next_pk t →
  (ContentLibrary.org r' = ContentLibrary.org r ∧
   ContentLibrary.slug r' = ContentLibrary.slug r) ∨
  ContentLibrary.bundle_uuid r' = ContentLibrary.bundle_uuid r →
  ContentLibrary.save None now (Obj None r) t = (Raise IntegrityError, Obj None r, t).
Proof.
  intros Hk' Hne Hsame.
  unfold ContentLibrary.save, Model_save, Model_save_table. cbn [pk attrs].
  change (run_pre_save _ true now r) with r.
  rewrite (violates_true (next_pk t) k' r r' (rows t) Hk' Hne); [done|].
  simpl. unfold ContentLibrary.same_org_slug, ContentLibrary.same_bundle_uuid.
  destruct Hsame as [[Ho Hs]|Hb].
  - rewrite Ho, Hs, Z.eqb_refl, bool_decide_eq_true_2; done.
  - rewrite Hb, N.eqb_refl. apply orb_true_r.
Qed.

Lemma library_repeated_key_is_refused_witness :
  let t := Table (<[1 := ContentLibrary.Row 3 "algebra" 17 "complex" "" false false]> ∅) 2 in
  ContentLibrary.save None 9
    (Obj None (ContentLibrary.Row 4 "biology" 17 "complex" "" false false)) t =
  (Raise IntegrityError,
   Obj None (ContentLibrary.Row 4 "biology" 17 "complex" "" false false), t).
Proof.
  intros t.
  apply (library_repeated_key_is_refused 9
           (ContentLibrary.Row 4 "biology" 17 "complex" "" false false)
           (ContentLibrary.Row 3 "algebra" 17 "complex" "" false false) t 1);
    [reflexivity | vm_compute; discriminate | right; reflexivity].
Defined.

(** X13: the text of a grant names the user when there is one, whatever the
    group, and the group otherwise; it fails, on the attribute of a missing
    group, exactly for an object with neither.  So every grant that [save]
    accepts has a text. *)
Theorem permission_str_needs_a_grantee (username name : Z → string)
    (self : ContentLibraryPermission.row) :
  (ContentLibraryPermissionStr.__str__ username name self =
     ContentLibraryPermissionStr.AttributeError ↔
   ContentLibraryPermission.grantees self = 0%nat) ∧
  (∀ u, ContentLibraryPermission.user self = Some u →
     ContentLibraryPermissionStr.__str__ username name self =
       ContentLibraryPermissionStr.Str
         ("ContentLibraryPermission (" ++ ContentLibraryPermission.access_level self
            ++ " for " ++ username u ++ ")")) ∧
  (∀ g, ContentLibraryPermission.user self = None →
     ContentLibraryPermission.group self = Some g →
     ContentLibraryPermissionStr.__str__ username name self =
       ContentLibraryPermissionStr.Str
         ("ContentLibraryPermission (" ++ ContentLibraryPermission.access_level self
            ++ " for " ++ name g ++ ")")) ∧
  (ContentLibraryPermission.grantees self = 1%nat →
   ∃ s, ContentLibraryPermissionStr.__str__ username name self =
          ContentLibraryPermissionStr.Str s).
Proof.
  unfold ContentLibraryPermissionStr.__str__, ContentLibraryPermission.grantees.
  destruct (ContentLibraryPermission.user self) as [u|],
           (ContentLibraryPermission.group self) as [g|]; simpl;
    repeat split; try done; try lia; try (intros; simplify_eq; done); eauto.
Qed.

Lemma permission_str_needs_a_grantee_witness :
  ContentLibraryPermissionStr.__str__ (λ _, "alice"%string) (λ _, "staff"%string)
    (ContentLibraryPermission.Row 1 None (Some 4) "read") =
  ContentLibraryPermissionStr.Str "ContentLibraryPermission (read for staff)" ∧
  ContentLibraryPermissionStr.__str__ (λ _, "alice"%string) (λ _, "staff"%string)
    (ContentLibraryPermission.Row 1 None None "read") =
  ContentLibraryPermissionStr.AttributeError.
Proof.
  destruct (permission_str_needs_a_grantee (λ _, "alice"%string) (λ _, "staff"%string)
              (ContentLibraryPermission.Row 1 None (Some 4) "read")) as (_ & _ & Hg & _).
  destruct (permission_str_needs_a_grantee (λ _, "alice"%string) (λ _, "staff"%string)
              (ContentLibraryPermission.Row 1 None None "read")) as (Hnone & _).
  split; [exact (Hg 4 eq_refl eq_refl) | exact (proj2 Hnone eq_refl)].
Defined.

(** ** Libraries by key *)

Section ManagerFacts.
Import ContentLibraryManager.

Lemma matches_spec organizations key (r : ContentLibrary.row) :
  matches organizations key r = true ↔
  organizations !! ContentLibrary.org r = Some (LibraryLocatorV2.org key) ∧
  ContentLibrary.slug r = LibraryLocatorV2.slug key.
Proof.
  unfold matches. by rewrite andb_true_iff, !bool_decide_eq_true.
Qed.

(** Two stored libraries that match one key are one library, when the
    organizations have different short names. *)
Lemma matches_same_row organizations key (t : table ContentLibrary.row) k1 k2 r1 r2 :
  consistent t →
  (∀ o1 o2 s, organizations !! o1 = Some s → organizations !! o2 = Some s → o1 = o2) →
  rows t !! k1 = Some r1 → rows t !! k2 = Some r2 →
  matches organizations key r1 = true → matches organizations key r2 = true →
  k1 = k2.
Proof.
  intros Hc Hinj H1 H2 [Ho1 Hs1]%matches_spec [Ho2 Hs2]%matches_spec.
  destruct (decide (k1 = k2)) as [|Hne]; [done|]. exfalso.
  pose proof (Hc k1 k2 r1 r2 H1 H2 Hne) as Hconf. simpl in Hconf.
  apply orb_false_iff in Hconf as [Hos _].
  unfold ContentLibrary.same_org_slug in Hos.
  rewrite (Hinj _ _ _ Ho1 Ho2), Z.eqb_refl, bool_decide_eq_true_2 in Hos; [done|].
  congruence.
Qed.

Lemma get_by_key_cases organizations key (t : table ContentLibrary.row) :
  let found := filter (λ kr, matches organizations key kr.2 = true) (rows t) in
  (found = ∅ ∧ get_by_key organizations key t = RaiseDoesNotExist) ∨
  (∃ k r, found = {[k := r]} ∧ get_by_key organizations key t = Got (Obj (Some k) r)) ∨
  (∃ k1 k2 r1 r2, k1 ≠ k2 ∧ found !! k1 = Some r1 ∧ found !! k2 = Some r2 ∧
     get_by_key organizations key t = RaiseMultipleObjectsReturned).
Proof.
  intros found. unfold get_by_key. fold found.
  pose proof (NoDup_fst_map_to_list found) as Hnd.
  pose proof (λ k r, elem_of_map_to_list found k r) as Hel.
  pose proof (list_to_map_to_list found) as Hback.
  destruct (map_to_list found) as [|[k1 r1] [|[k2 r2] l]].
  - left. split; [|done]. by rewrite <- Hback.
  - right; left. exists k1, r1. split; [|done]. rewrite <- Hback. simpl.
    by rewrite insert_empty.
  - right; right. exists k1, k2, r1, r2. split; [|split; [|split; [|done]]].
    + simpl in Hnd. apply NoDup_cons in Hnd as [Hnot _].
      intros ->. apply Hnot. constructor.
    + apply Hel. constructor.
    + apply Hel. do 2 constructor.
Qed.
End ManagerFacts.

(** X14: a stored library is found again by its own key.  In a table that
    respects the unique indexes, with organizations of different short
    names, [get_by_key] of the key a stored library reports gives that
    library, under the key it is stored with. *)
Theorem get_by_key_finds_the_library (checks : LibraryLocatorV2.key → bool)
    (organizations : gmap Z string) (t : table ContentLibrary.row) k
    (r : ContentLibrary.row) (library_key : LibraryLocatorV2.key) :
  consistent t →
  (∀ o1 o2 s, organizations !! o1 = Some s → organizations !! o2 = Some s → o1 = o2) →
  rows t !! k = Some r →
  ContentLibraryManager.library_key checks organizations r = Some library_key →
  ContentLibraryManager.get_by_key organizations library_key t =
    ContentLibraryManager.Got (Obj (Some k) r).
Proof.
  intros Hc Hinj Hk Hkey.
  assert (Hm : ContentLibraryManager.matches organizations library_key r = true).
  { unfold ContentLibraryManager.library_key in Hkey.
    destruct (organizations !! ContentLibrary.org r) as [s|] eqn:Ho; [|done].
    destruct (checks _); [|done]. injection Hkey as <-.
    apply matches_spec. by rewrite Ho. }
  assert (Hin : filter (λ kr, ContentLibraryManager.matches organizations library_key kr.2 = true)
                  (rows t) !! k = Some r) by (by apply map_lookup_filter_Some).
  destruct (get_by_key_cases organizations library_key t)
    as [[He _]|[(k1 & r1 & Hs & ->)|(k1 & k2 & r1 & r2 & Hne & H1 & H2 & _)]].
  - rewrite He in Hin. by rewrite lookup_empty in Hin.
  - rewrite Hs in Hin. apply lookup_singleton_Some in Hin as [-> ->]. done.
  - apply map_lookup_filter_Some in H1 as [H1 M1].
    apply map_lookup_filter_Some in H2 as [H2 M2]. simpl in M1, M2.
    destruct Hne. by eapply matches_same_row.
Qed.

Lemma get_by_key_finds_the_library_witness :
  let organizations : gmap Z string := {[3 := "MITx"%string]} in
  let t := apply_writes ContentLibrary.save
             [Save None 0 (Obj None (ContentLibrary.Row 3 "algebra" 17 "complex" "" false false));
              Save None 1 (Obj None (ContentLibrary.Row 3 "biology" 18 "complex" "" false false))]
             empty_table in
  ContentLibraryManager.get_by_key organizations (LibraryLocatorV2.Key "MITx" "biology") t =
    ContentLibraryManager.Got
      (Obj (Some 2) (ContentLibrary.Row 3 "biology" 18 "complex" "" false false)).
Proof.
  intros organizations t.
  apply (get_by_key_finds_the_library (λ _, true) organizations t 2
           (ContentLibrary.Row 3 "biology" 18 "complex" "" false false)).
  - apply library_writes_consistent.
  - intros o1 o2 s [<- _]%lookup_singleton_Some [<- _]%lookup_singleton_Some. done.
  - reflexivity.
  - reflexivity.
Defined.

(** X15: with a table that respects the unique indexes and organizations
    of different short names, [get_by_key] never raises
    [MultipleObjectsReturned]. *)
Theorem get_by_key_is_never_ambiguous (organizations : gmap Z string)
    (t : table ContentLibrary.row) (library_key : LibraryLocatorV2.key) :
  consistent t →
  (∀ o1 o2 s, organizations !! o1 = Some s → organizations !! o2 = Some s → o1 = o2) →
  ContentLibraryManager.get_by_key organizations library_key t ≠
    ContentLibraryManager.RaiseMultipleObjectsReturned.
Proof.
  intros Hc Hinj.
  destruct (get_by_key_cases organizations library_key t)
    as [[_ ->]|[(k1 & r1 & _ & ->)|(k1 & k2 & r1 & r2 & Hne & H1 & H2 & _)]];
    [done|done|].
  apply map_lookup_filter_Some in H1 as [H1 M1].
  apply map_lookup_filter_Some in H2 as [H2 M2]. simpl in M1, M2.
  destruct Hne. by eapply matches_same_row.
Qed.

Lemma get_by_key_is_never_ambiguous_witness :
  ContentLibraryManager.get_by_key {[3 := "MITx"%string]}
    (LibraryLocatorV2.Key "MITx" "algebra")
    (apply_writes ContentLibrary.save
       [Save None 0 (Obj None (ContentLibrary.Row 3 "algebra" 17 "complex" "" false false))]
       empty_table) ≠
  ContentLibraryManager.RaiseMultipleObjectsReturned.
Proof.
  apply get_by_key_is_never_ambiguous.
  - apply library_writes_consistent.
  - intros o1 o2 s [<- _]%lookup_singleton_Some [<- _]%lookup_singleton_Some. done.
Defined.

(** X16: what [get_by_key] answers is right.  A library it returns is
    stored under the key it carries, its slug is the slug asked for and its
    organization has the short name asked for; and it raises [DoesNotExist]
    exactly when no stored library matches. *)
Theorem get_by_key_answers_what_is_stored (organizations : gmap Z string)
    (t : table ContentLibrary.row) (library_key : LibraryLocatorV2.key) :
  (∀ o, ContentLibraryManager.get_by_key organizations library_key t =
          ContentLibraryManager.Got o →
     ∃ k, pk o = Some k ∧ rows t !! k = Some (attrs o) ∧
          organizations !! ContentLibrary.org (attrs o) =
            Some (LibraryLocatorV2.org library_key) ∧
          ContentLibrary.slug (attrs o) = LibraryLocatorV2.slug library_key) ∧
  (ContentLibraryManager.get_by_key organizations library_key t =
     ContentLibraryManager.RaiseDoesNotExist ↔
   ∀ k r, rows t !! k = Some r →
          ContentLibraryManager.matches organizations library_key r = false).
Proof.
  destruct (get_by_key_cases organizations library_key t)
    as [[He ->]|[(k1 & r1 & Hs & ->)|(k1 & k2 & r1 & r2 & Hne & H1 & H2 & ->)]].
  - split; [done|]. split; [|done]. intros _ k r Hk.
    destruct (ContentLibraryManager.matches organizations library_key r) eqn:Hm; [|done].
    assert (Hin : filter (λ kr, ContentLibraryManager.matches organizations library_key kr.2
                                = true) (rows t) !! k = Some r)
      by (by apply map_lookup_filter_Some).
    rewrite He in Hin. by rewrite lookup_empty in Hin.
  - assert (Hin : filter (λ kr, ContentLibraryManager.matches organizations library_key kr.2
                                = true) (rows t) !! k1 = Some r1)
      by (rewrite Hs; apply lookup_singleton_eq).
    apply map_lookup_filter_Some in Hin as [Hk1 Hm]. simpl in Hm.
    split.
    + intros o [= <-]. exists k1. apply matches_spec in Hm as [Ho Hsl]. done.
    + split; [done|]. intros Hnone. rewrite (Hnone k1 r1 Hk1) in Hm. done.
  - split; [done|]. split; [done|]. intros Hnone.
    apply map_lookup_filter_Some in H1 as [H1 M1]. simpl in M1.
    rewrite (Hnone k1 r1 H1) in M1. done.
Qed.

Lemma get_by_key_answers_what_is_stored_witness :
  ContentLibraryManager.get_by_key {[3 := "MITx"%string]}
    (LibraryLocatorV2.Key "MITx" "chemistry")
    (Table (<[1 := ContentLibrary.Row 3 "algebra" 17 "complex" "" false false]> ∅) 2) =
  ContentLibraryManager.RaiseDoesNotExist.
Proof.
  apply (proj2 (get_by_key_answers_what_is_stored _ _ _)).
  intros k r Hk. cbn [rows] in Hk.
  apply lookup_insert_Some in Hk as [[<- <-]|[_ Hk]]; [reflexivity|].
  by rewrite lookup_empty in Hk.
Defined.

(** ** The migration and the schema *)

Section MigrationMore.
Import CourseGoalsMigration.

Lemma migrate_other schema key :
  key ≠ coursegoal → key ≠ historicalcoursegoal →
  migrate schema !! key = schema !! key.
Proof.
  intros H1 H2. unfold migrate, operations, state_forwards. simpl.
  rewrite !lookup_alter_ne; done.
Qed.
End MigrationMore.

(** X17: the migration alters the two [unsubscribe_token] fields and nothing
    else: every other field of the schema is as before, no field is added
    and none removed. *)
Theorem migration_alters_two_fields_only
    (schema : gmap (string * string) CourseGoalsMigration.UUIDField) key :
  (key ≠ CourseGoalsMigration.coursegoal →
   key ≠ CourseGoalsMigration.historicalcoursegoal →
   CourseGoalsMigration.migrate schema !! key = schema !! key) ∧
  (is_Some (CourseGoalsMigration.migrate schema !! key) ↔ is_Some (schema !! key)).
Proof.
  split; [apply migrate_other|].
  destruct (decide (key = CourseGoalsMigration.coursegoal)) as [->|H1].
  { rewrite migrate_coursegoal. by rewrite fmap_is_Some. }
  destruct (decide (key = CourseGoalsMigration.historicalcoursegoal)) as [->|H2].
  { rewrite migrate_historicalcoursegoal. by rewrite fmap_is_Some. }
  by rewrite migrate_other.
Qed.

Lemma migration_alters_two_fields_only_witness :
  let other := {| CourseGoalsMigration.blank := false;
                  CourseGoalsMigration.db_index := false;
                  CourseGoalsMigration.default := CourseGoalsMigration.NOT_PROVIDED;
                  CourseGoalsMigration.editable := true;
                  CourseGoalsMigration.help_text := "";
                  CourseGoalsMigration.null := false;
                  CourseGoalsMigration.unique := true |} in
  let schema : gmap (string * string) CourseGoalsMigration.UUIDField :=
    <[("coursegoal", "other_token")%string := other]>
      (<[CourseGoalsMigration.coursegoal := other]> ∅) in
  CourseGoalsMigration.migrate schema !! ("coursegoal", "other_token")%string = Some other.
Proof.
  intros other schema.
  rewrite (proj1 (migration_alters_two_fields_only schema ("coursegoal", "other_token")%string));
    [reflexivity | discriminate | discriminate].
Defined.

(** X18: applying the migration a second time changes nothing. *)
Theorem migration_is_idempotent
    (schema : gmap (string * string) CourseGoalsMigration.UUIDField) :
  CourseGoalsMigration.migrate (CourseGoalsMigration.migrate schema) =
  CourseGoalsMigration.migrate schema.
Proof.
  apply map_eq. intros key.
  destruct (decide (key = CourseGoalsMigration.coursegoal)) as [->|H1].
  { rewrite !migrate_coursegoal. by destruct (schema !! _). }
  destruct (decide (key = CourseGoalsMigration.historicalcoursegoal)) as [->|H2].
  { rewrite !migrate_historicalcoursegoal. by destruct (schema !! _). }
  by rewrite !migrate_other.
Qed.

(** X19: a row without a token is always accepted, under the field of
    either model and beside any number of rows without one: NULL never
    collides in the unique index. *)
Theorem goal_without_token_is_always_stored (f : CourseGoalsMigration.UUIDField) now
    (t : table (option N)) :
  CourseGoalsMigration.save f None now (Obj None None) t =
    (Ok tt, Obj (Some (next_pk t)) None,
     Table (<[next_pk t := None]> (rows t)) (next_pk t + 1)).
Proof.
  unfold CourseGoalsMigration.save, Model_save, Model_save_table. cbn [pk attrs].
  change (@run_pre_save _ (CourseGoalsMigration.goal_model f) _ true now None)
    with (@None N).
  replace (@violates _ (CourseGoalsMigration.goal_model f) (next_pk t) None (rows t))
    with false; [done|].
  symmetry. apply (@violates_false _ (CourseGoalsMigration.goal_model f)).
  intros k' r' _ _. simpl. apply andb_false_r.
Qed.

(** ** Foreign keys across the tables *)

Section RelationFacts.
Import Relations.

(** A save writes at most one row, under the key the object then has, and
    none at all when it raises or with an empty [update_fields]. *)
Lemma Model_save_writes_one_row {F : Type} `{Model F} uf now (o : obj F) (t : table F) :
  rows (Model_save uf now o t).2 = rows t ∨
  (uf ≠ Some [] ∧ (Model_save uf now o t).1.1 = Ok tt ∧
   ∃ k row, pk (Model_save uf now o t).1.2 = Some k ∧
            rows (Model_save uf now o t).2 = <[k := row]> (rows t)).
Proof.
  unfold Model_save, Model_save_table.
  repeat (case_match; simpl; eauto); right; split; try done; eauto.
Qed.

Lemma permission_save_writes_one_row uf now (o : obj ContentLibraryPermission.row)
    (t : table ContentLibraryPermission.row) :
  rows (ContentLibraryPermission.save uf now o t).2 = rows t ∨
  (uf ≠ Some [] ∧ (ContentLibraryPermission.save uf now o t).1.1 = Ok tt ∧
   ∃ k row, pk (ContentLibraryPermission.save uf now o t).1.2 = Some k ∧
            rows (ContentLibraryPermission.save uf now o t).2 = <[k := row]> (rows t)).
Proof.
  unfold ContentLibraryPermission.save, ContentLibraryPermission.save_over.
  case_match; [by left|]. apply Model_save_writes_one_row.
Qed.

(** Under the foreign keys, the row a save writes has passed their check. *)
Lemma save_checked_rows {F : Type} (refs : F → bool) (save : save_method F)
    uf now (o : obj F) (t : table F) :
  (rows (save uf now o t).2 = rows t ∨
   (uf ≠ Some [] ∧ (save uf now o t).1.1 = Ok tt ∧
    ∃ k row, pk (save uf now o t).1.2 = Some k ∧
             rows (save uf now o t).2 = <[k := row]> (rows t))) →
  rows (save_checked refs save uf now o t).2 = rows t ∨
  ∃ k row, refs row = true ∧
           rows (save_checked refs save uf now o t).2 = <[k := row]> (rows t).
Proof.
  unfold save_checked. destruct (save uf now o t) as [[r o'] t']. simpl.
  intros [Hsame|(Hne & -> & k & row & Hpk & Hins)].
  - repeat (case_match; simpl; eauto).
  - rewrite Hpk. simpl. rewrite Hins, lookup_insert_eq.
    destruct uf as [[|f fs]|]; try done;
      (destruct (refs row) eqn:Hr; simpl; [right; eauto | by left]).
Qed.
Lemma library_refs_spec (w : world) (r : ContentLibrary.row) :
  library_refs w r = true ↔ is_Some (organizations w !! ContentLibrary.org r).
Proof. unfold library_refs. by rewrite bool_decide_eq_true. Qed.

Lemma task_refs_spec (w : world) (r : ContentLibraryBlockImportTask.row) :
  task_refs w r = true ↔
  is_Some (rows (libraries w) !! ContentLibraryBlockImportTask.library r).
Proof. unfold task_refs. by rewrite bool_decide_eq_true. Qed.

Lemma permission_refs_spec (w : world) (r : ContentLibraryPermission.row) :
  permission_refs w r = true ↔
  is_Some (rows (libraries w) !! ContentLibraryPermission.library r) ∧
  (∀ u, ContentLibraryPermission.user r = Some u → u ∈ users w) ∧
  (∀ g, ContentLibraryPermission.group r = Some g → g ∈ groups w).
Proof.
  unfold permission_refs. rewrite !andb_true_iff, bool_decide_eq_true.
  destruct (ContentLibraryPermission.user r) as [u|],
           (ContentLibraryPermission.group r) as [g|];
    rewrite ?bool_decide_eq_true; split.
  all: try (intros [[Hl Hu] Hg]; repeat split; try done; by intros ? [= <-]).
  all: intros (Hl & Hu & Hg); repeat split; eauto.
Qed.

(** The three parts of [integrity], as they follow from an earlier world. *)
Lemma libraries_keep_integrity (w w' : world) :
  (∀ j r, rows (libraries w') !! j = Some r →
          (rows (libraries w) !! j = Some r ∧
           (∀ o, is_Some (organizations w !! o) → ContentLibrary.org r = o →
                 is_Some (organizations w' !! o))) ∨
          library_refs w' r = true) →
  map_Forall (λ _ r, library_refs w r = true) (rows (libraries w)) →
  map_Forall (λ _ r, library_refs w' r = true) (rows (libraries w')).
Proof.
  intros Hstep Hw j r Hj. destruct (Hstep j r Hj) as [[Hold Horg]|Hnew]; [|done].
  apply library_refs_spec. eapply Horg; [|done].
  by apply library_refs_spec, (Hw j r).
Qed.

Lemma permissions_keep_integrity (w w' : world) :
  (∀ j r, rows (permission_grants w') !! j = Some r →
          (rows (permission_grants w) !! j = Some r ∧
           (is_Some (rows (libraries w) !! ContentLibraryPermission.library r) →
            is_Some (rows (libraries w') !! ContentLibraryPermission.library r)) ∧
           (∀ u, ContentLibraryPermission.user r = Some u → u ∈ users w → u ∈ users w') ∧
           (∀ g, ContentLibraryPermission.group r = Some g → g ∈ groups w → g ∈ groups w')) ∨
          permission_refs w' r = true) →
  map_Forall (λ _ r, permission_refs w r = true) (rows (permission_grants w)) →
  map_Forall (λ _ r, permission_refs w' r = true) (rows (permission_grants w')).
Proof.
  intros Hstep Hw j r Hj.
  destruct (Hstep j r Hj) as [(Hold & Hl & Hu & Hg)|Hnew]; [|done].
  pose proof (Hw j r Hold) as Hr. simpl in Hr.
  apply permission_refs_spec in Hr as (Hl0 & Hu0 & Hg0).
  apply permission_refs_spec. repeat split; eauto.
Qed.

Lemma tasks_keep_integrity (w w' : world) :
  (∀ j r, rows (import_tasks w') !! j = Some r →
          (rows (import_tasks w) !! j = Some r ∧
           (is_Some (rows (libraries w) !! ContentLibraryBlockImportTask.library r) →
            is_Some (rows (libraries w') !! ContentLibraryBlockImportTask.library r))) ∨
          task_refs w' r = true) →
  map_Forall (λ _ r, task_refs w r = true) (rows (import_tasks w)) →
  map_Forall (λ _ r, task_refs w' r = true) (rows (import_tasks w')).
Proof.
  intros Hstep Hw j r Hj. destruct (Hstep j r Hj) as [[Hold Hl]|Hnew]; [|done].
  apply task_refs_spec, Hl. by apply task_refs_spec, (Hw j r).
Qed.

Lemma delete_where_lookup {F : Type} (P : F → bool) (t : table F) j (r : F) :
  rows (delete_where P t) !! j = Some r ↔ rows t !! j = Some r ∧ P r = false.
Proof. unfold delete_where. simpl. by rewrite map_lookup_filter_Some. Qed.

Lemma insert_or_same_lookup {F : Type} (m m' : gmap Z F) (P : F → Prop) j (r : F) :
  (m' = m ∨ ∃ k row, P row ∧ m' = <[k := row]> m) →
  m' !! j = Some r → m !! j = Some r ∨ P r.
Proof.
  intros [->|(k & row & Hrow & ->)] Hj; [by left|].
  apply lookup_insert_Some in Hj as [[_ <-]|[_ Hj]]; eauto.
Qed.

Lemma insert_or_same_keeps_keys {F : Type} (m m' : gmap Z F) j :
  (m' = m ∨ ∃ k row, m' = <[k := row]> m) →
  is_Some (m !! j) → is_Some (m' !! j).
Proof.
  intros [->|(k & row & ->)] Hj; [done|].
  rewrite lookup_insert_is_Some. destruct (decide (k = j)); eauto.
Qed.

Lemma apply_op_integrity (c : op) (w : world) : integrity w → integrity (apply_op c w).
Proof.
  intros (Hlib & Hperm & Htask). destruct c; simpl.
  - (* AddOrganization *)
    split; [|split].
    + eapply libraries_keep_integrity; [|exact Hlib]. intros j r Hj. left.
      split; [done|]. intros o Ho _. simpl.
      rewrite lookup_insert_is_Some. destruct (decide (k = o)); eauto.
    + eapply permissions_keep_integrity; [|exact Hperm]. intros j r Hj. left. eauto.
    + eapply tasks_keep_integrity; [|exact Htask]. intros j r Hj. left. eauto.
  - (* DeleteOrganization *)
    unfold delete_organization. destruct (protected k w) eqn:Hp; simpl; [done|].
    unfold protected in Hp. apply bool_decide_eq_false in Hp.
    split; [|split].
    + eapply libraries_keep_integrity; [|exact Hlib]. intros j r Hj. left.
      split; [done|]. intros o Ho Horg. simpl in *.
      rewrite lookup_delete_ne; [done|]. intros ->. apply Hp.
      apply map_Exists_lookup. by exists j, r.
    + eapply permissions_keep_integrity; [|exact Hperm]. intros j r Hj. left. eauto.
    + eapply tasks_keep_integrity; [|exact Htask]. intros j r Hj. left. eauto.
  - (* AddUser *)
    split; [|split].
    + eapply libraries_keep_integrity; [|exact Hlib]. intros j r Hj. left. eauto.
    + eapply permissions_keep_integrity; [|exact Hperm]. intros j r Hj. left.
      simpl. repeat split; eauto. intros u _ Hu. set_solver.
    + eapply tasks_keep_integrity; [|exact Htask]. intros j r Hj. left. eauto.
  - (* DeleteUser *)
    split; [|split].
    + eapply libraries_keep_integrity; [|exact Hlib]. intros j r Hj. left. eauto.
    + eapply permissions_keep_integrity; [|exact Hperm]. intros j r Hj. left.
      simpl in *. apply map_lookup_filter_Some in Hj as [Hj Hnot]. simpl in Hnot.
      apply bool_decide_eq_false in Hnot.
      repeat split; eauto. intros u Hu Hin.
      apply elem_of_difference. split; [done|].
      intros ->%elem_of_singleton. congruence.
    + eapply tasks_keep_integrity; [|exact Htask]. intros j r Hj. left. eauto.
  - (* AddGroup *)
    split; [|split].
    + eapply libraries_keep_integrity; [|exact Hlib]. intros j r Hj. left. eauto.
    + eapply permissions_keep_integrity; [|exact Hperm]. intros j r Hj. left.
      simpl. repeat split; eauto. intros g _ Hg. set_solver.
    + eapply tasks_keep_integrity; [|exact Htask]. intros j r Hj. left. eauto.
  - (* DeleteGroup *)
    split; [|split].
    + eapply libraries_keep_integrity; [|exact Hlib]. intros j r Hj. left. eauto.
    + eapply permissions_keep_integrity; [|exact Hperm]. intros j r Hj. left.
      simpl in *. apply map_lookup_filter_Some in Hj as [Hj Hnot]. simpl in Hnot.
      apply bool_decide_eq_false in Hnot.
      repeat split; eauto. intros g Hg Hin.
      apply elem_of_difference. split; [done|].
      intros ->%elem_of_singleton. congruence.
    + eapply tasks_keep_integrity; [|exact Htask]. intros j r Hj. left. eauto.
  - (* SaveLibrary *)
    pose proof (save_checked_rows (library_refs w) ContentLibrary.save update_fields now o
                  (libraries w) (Model_save_writes_one_row _ _ _ _)) as Hshape.
    assert (Hkeys : ∀ j, is_Some (rows (libraries w) !! j) →
              is_Some (rows (save_checked (library_refs w) ContentLibrary.save
                               update_fields now o (libraries w)).2 !! j)).
    { intros j. apply insert_or_same_keeps_keys.
      destruct Hshape as [?|(k & row & _ & ?)]; eauto. }
    split; [|split].
    + eapply libraries_keep_integrity; [|exact Hlib]. intros j r Hj. simpl in Hj.
      destruct (insert_or_same_lookup _ _ (λ row, library_refs w row = true) j r Hshape Hj);
        [left; eauto | by right].
    + eapply permissions_keep_integrity; [|exact Hperm]. intros j r Hj. left.
      simpl. repeat split; eauto.
    + eapply tasks_keep_integrity; [|exact Htask]. intros j r Hj. left.
      simpl. repeat split; eauto.
  - (* DeleteLibrary *)
    split; [|split].
    + eapply libraries_keep_integrity; [|exact Hlib]. intros j r Hj. left.
      simpl in *. apply lookup_delete_Some in Hj as [_ Hj]. eauto.
    + eapply permissions_keep_integrity; [|exact Hperm]. intros j r Hj. left.
      simpl in *. apply map_lookup_filter_Some in Hj as [Hj Hnot]. simpl in Hnot.
      apply Z.eqb_neq in Hnot.
      repeat split; eauto. by rewrite lookup_delete_ne.
    + eapply tasks_keep_integrity; [|exact Htask]. intros j r Hj. left.
      simpl in *. apply map_lookup_filter_Some in Hj as [Hj Hnot]. simpl in Hnot.
      apply Z.eqb_neq in Hnot.
      repeat split; eauto. by rewrite lookup_delete_ne.
  - (* SavePermission *)
    pose proof (save_checked_rows (permission_refs w) ContentLibraryPermission.save
                  update_fields now o (permission_grants w)
                  (permission_save_writes_one_row _ _ _ _)) as Hshape.
    split; [|split].
    + eapply libraries_keep_integrity; [|exact Hlib]. intros j r Hj. left. eauto.
    + eapply permissions_keep_integrity; [|exact Hperm]. intros j r Hj. simpl in Hj.
      destruct (insert_or_same_lookup _ _ (λ row, permission_refs w row = true) j r
                  Hshape Hj); [left; eauto | by right].
    + eapply tasks_keep_integrity; [|exact Htask]. intros j r Hj. left. eauto.
  - (* DeletePermission *)
    split; [|split].
    + eapply libraries_keep_integrity; [|exact Hlib]. intros j r Hj. left. eauto.
    + eapply permissions_keep_integrity; [|exact Hperm]. intros j r Hj. left.
      simpl in *. apply lookup_delete_Some in Hj as [_ Hj]. eauto.
    + eapply tasks_keep_integrity; [|exact Htask]. intros j r Hj. left. eauto.
  - (* SaveTask *)
    pose proof (save_checked_rows (task_refs w) Model_save update_fields now o
                  (import_tasks w) (Model_save_writes_one_row _ _ _ _)) as Hshape.
    split; [|split].
    + eapply libraries_keep_integrity; [|exact Hlib]. intros j r Hj. left. eauto.
    + eapply permissions_keep_integrity; [|exact Hperm]. intros j r Hj. left. eauto.
    + eapply tasks_keep_integrity; [|exact Htask]. intros j r Hj. simpl in Hj.
      destruct (insert_or_same_lookup _ _ (λ row, task_refs w row = true) j r Hshape Hj);
        [left; eauto | by right].
  - (* DeleteTask *)
    split; [|split].
    + eapply libraries_keep_integrity; [|exact Hlib]. intros j r Hj. left. eauto.
    + eapply permissions_keep_integrity; [|exact Hperm]. intros j r Hj. left. eauto.
    + eapply tasks_keep_integrity; [|exact Htask]. intros j r Hj. left.
      simpl in *. apply lookup_delete_Some in Hj as [_ Hj]. eauto.
Qed.

Lemma apply_ops_integrity (cs : list op) : ∀ w, integrity w → integrity (apply_ops cs w).
Proof.
  induction cs as [|c cs IH]; intros w Hw; simpl; [done|].
  by apply IH, apply_op_integrity.
Qed.
End RelationFacts.

(** X20: the foreign keys never dangle.  In every world built from the
    empty one by adding and deleting organizations, users and groups and by
    saving and deleting libraries, grants and import tasks, each library
    points to an organization that exists, each grant to a library that
    exists and to a user or group that exists, and each import task to a
    library that exists: [PROTECT] keeps an organization while a library
    points to it, and [CASCADE] removes grants and tasks with what they
    point to. *)
Theorem foreign_keys_never_dangle (cs : list Relations.op) :
  let w := Relations.apply_ops cs Relations.empty_world in
  (∀ j r, rows (Relations.libraries w) !! j = Some r →
     is_Some (Relations.organizations w !! ContentLibrary.org r)) ∧
  (∀ j r, rows (Relations.permission_grants w) !! j = Some r →
     is_Some (rows (Relations.libraries w) !! ContentLibraryPermission.library r) ∧
     (∀ u, ContentLibraryPermission.user r = Some u → u ∈ Relations.users w) ∧
     (∀ g, ContentLibraryPermission.group r = Some g → g ∈ Relations.groups w)) ∧
  (∀ j r, rows (Relations.import_tasks w) !! j = Some r →
     is_Some (rows (Relations.libraries w) !! ContentLibraryBlockImportTask.library r)).
Proof.
  intros w.
  assert (Hw : Relations.integrity w).
  { apply apply_ops_integrity. repeat split; apply map_Forall_empty. }
  destruct Hw as (Hlib & Hperm & Htask). split; [|split].
  - intros j r Hj. by apply library_refs_spec, (Hlib j r).
  - intros j r Hj. by apply permission_refs_spec, (Hperm j r).
  - intros j r Hj. by apply task_refs_spec, (Htask j r).
Qed.

Lemma foreign_keys_never_dangle_witness :
  let cs := [Relations.AddOrganization 3 "MITx"; Relations.AddUser 7;
             Relations.SaveLibrary None 0
               (Obj None (ContentLibrary.Row 3 "algebra" 17 "complex" "" false false));
             Relations.SavePermission None 1
               (Obj None (ContentLibraryPermission.Row 1 (Some 7) None "read"));
             Relations.SavePermission None 2
               (Obj None (ContentLibraryPermission.Row 5 (Some 7) None "read"));
             Relations.SaveTask None 3
               (Obj None (ContentLibraryBlockImportTask.new_row 1 "course-v1:a+b+c"));
             Relations.DeleteOrganization 3; Relations.DeleteUser 7] in
  let w := Relations.apply_ops cs Relations.empty_world in
  is_Some (Relations.organizations w !! 3) ∧
  is_Some (rows (Relations.libraries w) !! 1) ∧
  rows (Relations.permission_grants w) = ∅.
Proof.
  intros cs w.
  destruct (foreign_keys_never_dangle cs) as (Hlib & _ & Htask).
  split; [|split].
  - apply (Hlib 1 (ContentLibrary.Row 3 "algebra" 17 "complex" "" false false)).
    reflexivity.
  - apply (Htask 1 (ContentLibraryBlockImportTask.Row 1
                      ContentLibraryBlockImportTask.TASK_CREATED 0%float
                      "course-v1:a+b+c" (Some 3) (Some 3))).
    reflexivity.
  - reflexivity.
Defined.


(** ** Import tasks under the constraints of their table *)

Section StoredTaskFacts.
Import ContentLibraryBlockImportTask.

Local Arguments run_pre_save : simpl never.
Local Arguments write_columns : simpl never.
Local Arguments violates : simpl never.

(** The generator over the plain table, with a save that is never refused,
    is [execute] as modelled there. *)
Lemma execute_over_table k n1 n2 (body : work) (t : table row) :
  StoredImportTask.execute_over (table row) objects_get (Model_save None) k n1 n2 body t =
  execute k n1 n2 body t.
Proof. reflexivity. Qed.

(** A full save of a task on the plain table, as an equation. *)
Lemma task_full_save_eq now (o : obj row) (t : table row) :
  Model_save None now o t =
    (Ok tt, Obj (Some (saved_key o t)) (StoredImportTask.written now o t),
     Table (<[saved_key o t := StoredImportTask.written now o t]> (rows t))
           (match pk o with
            | None => next_pk t + 1
            | Some k =>
                match rows t !! k with
                | Some _ => next_pk t
                | None => Z.max (next_pk t) (k + 1)
                end
            end)).
Proof.
  unfold Model_save, Model_save_table, saved_key, StoredImportTask.written.
  destruct (pk o) as [k|]; simpl.
  - destruct (rows t !! k) as [old|];
      rewrite ?task_never_violates, ?task_write_all, ?task_pre_save_all;
      rewrite ?task_never_violates; reflexivity.
  - rewrite task_never_violates, task_pre_save_all. reflexivity.
Qed.

Lemma with_import_tasks_same (w : Relations.world) :
  StoredImportTask.with_import_tasks (Relations.import_tasks w) w = w.
Proof. by destruct w. Qed.

Lemma storable_written now (self : obj row) (w : Relations.world) :
  StoredImportTask.storable w
    (StoredImportTask.written now self (Relations.import_tasks w)) =
  StoredImportTask.final_save_accepted self w.
Proof.
  unfold StoredImportTask.storable, StoredImportTask.final_save_accepted,
    StoredImportTask.written, Relations.task_refs. cbn [library created_at updated_at].
  destruct (pk self ≫= _) as [old|]; simpl.
  - by rewrite andb_true_r, orb_false_r.
  - by rewrite !andb_true_r, orb_true_r, andb_true_r.
Qed.

(** A full save of a task in a world: accepted, it writes the object under
    its key; refused, it leaves the world. *)
Lemma stored_save_eq now (self : obj row) (w : Relations.world) :
  StoredImportTask.save None now self w =
    if StoredImportTask.final_save_accepted self w then
      (Ok tt,
       Obj (Some (saved_key self (Relations.import_tasks w)))
           (StoredImportTask.written now self (Relations.import_tasks w)),
       StoredImportTask.with_import_tasks
         (Model_save None now self (Relations.import_tasks w)).2 w)
    else
      (Raise IntegrityError,
       Obj (Some (saved_key self (Relations.import_tasks w)))
           (StoredImportTask.written now self (Relations.import_tasks w)),
       w).
Proof.
  unfold StoredImportTask.save, Relations.save_checked.
  rewrite task_full_save_eq. cbn [pk rows mbind option_bind snd].
  rewrite lookup_insert_eq, storable_written.
  destruct (StoredImportTask.final_save_accepted self w); [done|].
  by rewrite with_import_tasks_same.
Qed.

Lemma final_save_accepted_state s (self : obj row) (w : Relations.world) :
  StoredImportTask.final_save_accepted (with_attrs (set_state s) self) w =
  StoredImportTask.final_save_accepted self w.
Proof. reflexivity. Qed.

(** The exit of [execute] in a world, as an equation. *)
Lemma stored_execute_exit_eq now (wk : result unit) (self : obj row)
    (w : Relations.world) :
  StoredImportTask.execute_exit now wk self w =
    let final := with_attrs (set_state (final_state wk)) self in
    if StoredImportTask.final_save_accepted self w then
      (wk,
       Obj (Some (saved_key self (Relations.import_tasks w)))
           (StoredImportTask.written now final (Relations.import_tasks w)),
       StoredImportTask.with_import_tasks
         (Model_save None now final (Relations.import_tasks w)).2 w)
    else
      (Raise IntegrityError,
       Obj (Some (saved_key self (Relations.import_tasks w)))
           (StoredImportTask.written now final (Relations.import_tasks w)),
       w).
Proof.
  unfold StoredImportTask.execute_exit, StoredImportTask.execute_exit_over.
  destruct wk as [[]|e]; cbv zeta; rewrite stored_save_eq, final_save_accepted_state;
    by destruct (StoredImportTask.final_save_accepted self w).
Qed.
End StoredTaskFacts.

(** C2, as the code has it: once [execute] has handed the task to the work,
    whatever the work does to the object and to the world, the state of the
    object is set to successful if the work completes and to failed if it
    raises, and the object is saved before [execute] is left.  When the
    table accepts that save, the final state is stored under the key of the
    object (the row of the task when the work left the key alone) and
    [execute] completes, or raises the very error of the work.  When the
    table refuses it, because the library of the task is gone or the object
    has lost its [created_at], [execute] raises the [IntegrityError] of the
    save in place of the outcome of the work, and the world is as the work
    left it: the final state is not stored. *)
Theorem execute_records_the_outcome_when_the_save_is_accepted k n1 n2
    (body : StoredImportTask.work) (w w1 w2 : Relations.world)
    (self self' : obj ContentLibraryBlockImportTask.row) (wk : result unit) :
  StoredImportTask.execute_enter k n1 w = (Ok self, w1) →
  body self w1 = (wk, self', w2) →
  ContentLibraryBlockImportTask.state
    (attrs (StoredImportTask.execute_exit n2 wk self' w2).1.2) =
    ContentLibraryBlockImportTask.final_state wk ∧
  (StoredImportTask.final_save_accepted self' w2 = true →
   ∃ w3,
     StoredImportTask.execute k n1 n2 body w = (wk, w3) ∧
     ContentLibraryBlockImportTask.stored_state
       (ContentLibraryBlockImportTask.saved_key self' (Relations.import_tasks w2))
       (Relations.import_tasks w3) =
       Some (ContentLibraryBlockImportTask.final_state wk) ∧
     (pk self' = Some k →
      ContentLibraryBlockImportTask.stored_state k (Relations.import_tasks w3) =
        Some (ContentLibraryBlockImportTask.final_state wk))) ∧
  (StoredImportTask.final_save_accepted self' w2 = false →
   StoredImportTask.execute k n1 n2 body w = (Raise IntegrityError, w2)).
Proof.
  intros Henter Hbody.
  unfold StoredImportTask.execute, StoredImportTask.execute_over.
  fold StoredImportTask.execute_enter. rewrite Henter, Hbody.
  fold StoredImportTask.execute_exit. rewrite stored_execute_exit_eq. cbv zeta.
  split; [by destruct (StoredImportTask.final_save_accepted self' w2)|]. split.
  - intros ->. eexists. split; [reflexivity|].
    assert (Hstored : ContentLibraryBlockImportTask.stored_state
              (ContentLibraryBlockImportTask.saved_key self' (Relations.import_tasks w2))
              (Model_save None n2
                 (ContentLibraryBlockImportTask.with_attrs
                    (ContentLibraryBlockImportTask.set_state
                       (ContentLibraryBlockImportTask.final_state wk)) self')
                 (Relations.import_tasks w2)).2 =
            Some (ContentLibraryBlockImportTask.final_state wk)).
    { rewrite task_full_save_eq. unfold ContentLibraryBlockImportTask.stored_state.
      cbn [snd rows]. unfold ContentLibraryBlockImportTask.saved_key.
      cbn [pk ContentLibraryBlockImportTask.with_attrs]. by rewrite lookup_insert_eq. }
    split; [exact Hstored|]. intros Hpk.
    unfold ContentLibraryBlockImportTask.saved_key in Hstored.
    by rewrite Hpk in Hstored.
  - by intros ->.
Qed.

Lemma execute_records_the_outcome_when_the_save_is_accepted_witness :
  let w := Relations.apply_ops
             [Relations.AddOrganization 3 "MITx";
              Relations.SaveLibrary None 0
                (Obj None (ContentLibrary.Row 3 "algebra" 17 "complex" "" false false));
              Relations.SaveTask None 5
                (Obj None (ContentLibraryBlockImportTask.new_row 1 "course-v1:a+b+c"))]
             Relations.empty_world in
  let body : StoredImportTask.work := λ self w, (Raise (Raised 3), self, w) in
  ∃ w3,
    StoredImportTask.execute 1 10 20 body w = (Raise (Raised 3), w3) ∧
    ContentLibraryBlockImportTask.stored_state 1 (Relations.import_tasks w3) =
      Some ContentLibraryBlockImportTask.TASK_FAILED.
Proof.
  intros w body.
  pose (self := Obj (Some 1)
                  (ContentLibraryBlockImportTask.Row 1
                     ContentLibraryBlockImportTask.TASK_RUNNING 0%float
                     "course-v1:a+b+c" (Some 5) (Some 10))).
  assert (Henter : StoredImportTask.execute_enter 1 10 w =
                   (Ok self, (StoredImportTask.execute_enter 1 10 w).2)) by reflexivity.
  destruct (execute_records_the_outcome_when_the_save_is_accepted 1 10 20 body w
              (StoredImportTask.execute_enter 1 10 w).2
              (StoredImportTask.execute_enter 1 10 w).2
              self self (Raise (Raised 3)) Henter eq_refl)
    as (_ & Hok & _).
  destruct (Hok eq_refl) as (w3 & Hexec & _ & Hk).
  exists w3. split; [exact Hexec | exact (Hk eq_refl)].
Defined.

(** C2, as stated, fails when the final save is refused.  A work that
    deletes the library of its task and raises: [execute] raises the
    [IntegrityError] of the save, not the error of the work, and no row of
    the task is left to carry the failed state.  A work that clears
    [created_at] on the object and completes: [execute] raises the
    [IntegrityError], and the task stays stored as running. *)
Lemma final_save_refused_loses_the_outcome :
  let w := Relations.apply_ops
             [Relations.AddOrganization 3 "MITx";
              Relations.SaveLibrary None 0
                (Obj None (ContentLibrary.Row 3 "algebra" 17 "complex" "" false false));
              Relations.SaveTask None 5
                (Obj None (ContentLibraryBlockImportTask.new_row 1 "course-v1:a+b+c"))]
             Relations.empty_world in
  let deletes_library : StoredImportTask.work :=
    λ self w, (Raise (Raised 3), self, Relations.delete_library 1 w) in
  let clears_created_at : StoredImportTask.work :=
    λ self w,
      (Ok tt,
       Obj (pk self)
         (ContentLibraryBlockImportTask.Row
            (ContentLibraryBlockImportTask.library (attrs self))
            (ContentLibraryBlockImportTask.state (attrs self))
            (ContentLibraryBlockImportTask.progress (attrs self))
            (ContentLibraryBlockImportTask.course_id (attrs self))
            None
            (ContentLibraryBlockImportTask.updated_at (attrs self))),
       w) in
  ContentLibraryBlockImportTask.stored_state 1 (Relations.import_tasks w) =
    Some ContentLibraryBlockImportTask.TASK_CREATED ∧
  (StoredImportTask.execute 1 10 20 deletes_library w).1 = Raise IntegrityError ∧
  ContentLibraryBlockImportTask.stored_state 1
    (Relations.import_tasks (StoredImportTask.execute 1 10 20 deletes_library w).2) = None ∧
  (StoredImportTask.execute 1 10 20 clears_created_at w).1 = Raise IntegrityError ∧
  ContentLibraryBlockImportTask.stored_state 1
    (Relations.import_tasks (StoredImportTask.execute 1 10 20 clears_created_at w).2) =
    Some ContentLibraryBlockImportTask.TASK_RUNNING.
Proof. repeat split; vm_compute; reflexivity. Qed.

(** X4: when the table accepts it, the final save of [execute] rewrites the
    whole row from the object the work was given: whatever is stored under
    the key of the object at that moment is replaced by the object's
    library, progress and course with the final state and the instant of
    the exit as [updated_at], so a progress saved meanwhile through another
    object is lost.  [created_at] is the object's where a row was there, and
    is set anew where the row had been deleted and is stored again.  No
    other row and no other table changes. *)
Theorem final_save_rewrites_the_row now (wk : result unit)
    (self : obj ContentLibraryBlockImportTask.row) (w : Relations.world) k :
  pk self = Some k →
  StoredImportTask.final_save_accepted self w = true →
  let out := StoredImportTask.execute_exit now wk self w in
  out.1.1 = wk ∧
  (∃ c, is_Some c ∧
        (is_Some (rows (Relations.import_tasks w) !! k) →
         c = ContentLibraryBlockImportTask.created_at (attrs self)) ∧
        rows (Relations.import_tasks out.2) =
          <[k := ContentLibraryBlockImportTask.Row
                   (ContentLibraryBlockImportTask.library (attrs self))
                   (ContentLibraryBlockImportTask.final_state wk)
                   (ContentLibraryBlockImportTask.progress (attrs self))
                   (ContentLibraryBlockImportTask.course_id (attrs self))
                   c (Some now)]> (rows (Relations.import_tasks w))) ∧
  Relations.libraries out.2 = Relations.libraries w ∧
  Relations.permission_grants out.2 = Relations.permission_grants w ∧
  Relations.organizations out.2 = Relations.organizations w.
Proof.
  intros Hpk Hacc out. subst out. rewrite stored_execute_exit_eq. cbv zeta.
  rewrite Hacc. cbn [fst snd]. split; [done|]. split; [|done].
  rewrite task_full_save_eq. cbn [snd rows StoredImportTask.with_import_tasks
                                   Relations.import_tasks].
  unfold ContentLibraryBlockImportTask.saved_key, StoredImportTask.written.
  cbn [pk attrs ContentLibraryBlockImportTask.with_attrs
       ContentLibraryBlockImportTask.set_state
       ContentLibraryBlockImportTask.library ContentLibraryBlockImportTask.state
       ContentLibraryBlockImportTask.progress ContentLibraryBlockImportTask.course_id
       ContentLibraryBlockImportTask.created_at].
  rewrite Hpk. cbn [default mbind option_bind].
  unfold StoredImportTask.final_save_accepted in Hacc. rewrite Hpk in Hacc.
  cbn [mbind option_bind] in Hacc.
  destruct (rows (Relations.import_tasks w) !! k) as [old|] eqn:Hk.
  - eexists. split; [|split; [|reflexivity]]; [|done].
    apply andb_true_iff in Hacc as [_ Hc]. apply orb_true_iff in Hc as [Hc|Hc].
    + by apply bool_decide_eq_true in Hc.
    + by apply bool_decide_eq_true in Hc.
  - eexists. split; [|split; [|reflexivity]]; [eauto|].
    intros [? ?]. done.
Qed.

Lemma final_save_rewrites_the_row_witness :
  let w := Relations.apply_ops
             [Relations.AddOrganization 3 "MITx";
              Relations.SaveLibrary None 0
                (Obj None (ContentLibrary.Row 3 "algebra" 17 "complex" "" false false));
              Relations.SaveTask None 5
                (Obj None (ContentLibraryBlockImportTask.new_row 1 "course-v1:a+b+c"));
              Relations.SaveTask (Some ["progress"; "updated_at"]%string) 12
                (Obj (Some 1)
                   (ContentLibraryBlockImportTask.Row 1
                      ContentLibraryBlockImportTask.TASK_CREATED 0.5%float
                      "course-v1:a+b+c" None None))]
             Relations.empty_world in
  let yielded := Obj (Some 1)
                   (ContentLibraryBlockImportTask.Row 1
                      ContentLibraryBlockImportTask.TASK_RUNNING 0%float "course-v1:a+b+c"
                      (Some 5) (Some 10)) in
  ContentLibraryBlockImportTask.stored_progress 1 (Relations.import_tasks w)
    = Some 0.5%float ∧
  ContentLibraryBlockImportTask.stored_progress 1
    (Relations.import_tasks (StoredImportTask.execute_exit 20 (Ok tt) yielded w).2)
    = Some 0%float.
Proof.
  intros w yielded. split; [reflexivity|].
  destruct (final_save_rewrites_the_row 20 (Ok tt) yielded w 1 eq_refl eq_refl)
    as (_ & (c & _ & _ & Hrows) & _).
  unfold ContentLibraryBlockImportTask.stored_progress. rewrite Hrows.
  by rewrite lookup_insert_eq.
Defined.

(** X7: a task made with [objects.create] for a library that exists is
    stored under the next key as created, with progress 0.0, the library
    and course given and both instants set; [objects.get] with that key
    gives it back, and no other task changes.  For a library that does not
    exist the creation is refused with an [IntegrityError] and nothing is
    stored. *)
Theorem new_task_is_created_with_no_progress now library course_id
    (w : Relations.world) :
  (is_Some (rows (Relations.libraries w) !! library) →
   ∃ created updated w',
     let made := ContentLibraryBlockImportTask.Row library
                   ContentLibraryBlockImportTask.TASK_CREATED 0%float course_id
                   (Some created) (Some updated) in
     let k := next_pk (Relations.import_tasks w) in
     StoredImportTask.objects_create now library course_id w =
       (Ok tt, Obj (Some k) made, w') ∧
     StoredImportTask.objects_get k w' = Ok (Obj (Some k) made) ∧
     (∀ j, j ≠ k → rows (Relations.import_tasks w') !! j
                   = rows (Relations.import_tasks w) !! j)) ∧
  (rows (Relations.libraries w) !! library = None →
   (StoredImportTask.objects_create now library course_id w).1.1 = Raise IntegrityError ∧
   (StoredImportTask.objects_create now library course_id w).2 = w).
Proof.
  unfold StoredImportTask.objects_create. rewrite stored_save_eq.
  unfold StoredImportTask.final_save_accepted.
  cbn [pk attrs mbind option_bind ContentLibraryBlockImportTask.new_row
       ContentLibraryBlockImportTask.library ContentLibraryBlockImportTask.created_at].
  rewrite (bool_decide_eq_true_2 (None = None)) by done.
  rewrite orb_true_r, andb_true_r. split.
  - intros Hlib. rewrite bool_decide_eq_true_2 by done.
    exists now, now. eexists. cbv zeta. split; [reflexivity|].
    rewrite task_full_save_eq.
    unfold StoredImportTask.objects_get, objects_get.
    cbn [snd rows StoredImportTask.with_import_tasks Relations.import_tasks pk].
    unfold ContentLibraryBlockImportTask.saved_key. cbn [pk default].
    rewrite lookup_insert_eq. split; [reflexivity|].
    intros j Hj. by rewrite lookup_insert_ne.
  - intros Hlib. rewrite bool_decide_eq_false_2; [done|].
    rewrite Hlib. by intros [? ?].
Qed.

Lemma new_task_is_created_with_no_progress_witness :
  let w := Relations.apply_ops
             [Relations.AddOrganization 3 "MITx";
              Relations.SaveLibrary None 0
                (Obj None (ContentLibrary.Row 3 "algebra" 17 "complex" "" false false))]
             Relations.empty_world in
  (∃ made w',
     StoredImportTask.objects_create 5 1 "course-v1:a+b+c" w = (Ok tt, Obj (Some 1) made, w') ∧
     ContentLibraryBlockImportTask.state made = ContentLibraryBlockImportTask.TASK_CREATED) ∧
  (StoredImportTask.objects_create 5 4 "course-v1:a+b+c" w).1.1 = Raise IntegrityError.
Proof.
  intros w. split.
  - destruct (proj1 (new_task_is_created_with_no_progress 5 1 "course-v1:a+b+c" w))
      as (created & updated & w' & Hmade & _); [vm_compute; eauto|].
    eexists _, w'. split; [exact Hmade | reflexivity].
  - refine (proj1 (proj2 (new_task_is_created_with_no_progress 5 4 "course-v1:a+b+c" w) _)).
    reflexivity.
Defined.
